(** * Verification of the PolyScalping multi-level scalping engine

    Shallow embedding of the Python sources under
    [PolyQuant/PolyScalping]:
    - [multi_level_strategy_v2.py] (module [V2]): the position-driven FSM
      and its ledger, driven by the [btc_scalping_bot_v2.py] orchestrator;
    - [multi_level_scalping_strategy.py] (module [V1]): the earlier
      strategy with its per-level entry debounce, driven by the web
      server orchestrator [btc_web_server.py] (module [Web]);
    - [tracker.py] (module [Book]): the order-book mirror.

    Prices and sizes (Python floats) are modelled as exact rationals [Q].
    Every dictionary of the sources indexed by [market_id] is modelled by
    the slice of one market: the code only ever reads and writes the entry
    of the market being evaluated, so markets do not interact.
    [time.time()] is a parameter [now]; one evaluation reads one clock
    value.  Log output ([logger.*]) and the human-readable [reason] field of
    signals are omitted. *)

From Stdlib Require Import QArith Qabs Qminmax Lqa List String Bool Arith ZArith Lia.
Import ListNotations.
Open Scope Q_scope.

(** ** Shared data model *)

Inductive Side := YES | NO.

Definition side_eqb (a b : Side) : bool :=
  match a, b with
  | YES, YES | NO, NO => true
  | _, _ => false
  end.

Definition side_eq_dec (a b : Side) : {a = b} + {a <> b}.
Proof. decide equality. Defined.

(** [ScalpSignal.action]. *)
Inductive Action := ENTER_YES | ENTER_NO | EXIT | EXIT_SELL | PLACE_TP_LIMIT.

Definition action_eqb (a b : Action) : bool :=
  match a, b with
  | ENTER_YES, ENTER_YES | ENTER_NO, ENTER_NO | EXIT, EXIT
  | EXIT_SELL, EXIT_SELL | PLACE_TP_LIMIT, PLACE_TP_LIMIT => true
  | _, _ => false
  end.

(** [ScalpSignal.urgency]. *)
Inductive Urgency := LOW | MEDIUM | HIGH | CRITICAL.

(** [models.OrderSide]. *)
Inductive OrderSide := BUY | SELL.

Definition order_side_eqb (a b : OrderSide) : bool :=
  match a, b with BUY, BUY | SELL, SELL => true | _, _ => false end.

(** The [metadata] dict of a signal: every key the sources read or write;
    [None] is a missing key. *)
Record Metadata := mkMetadata {
  md_side : option Side;
  md_level : option Q;
  md_is_high_price_scalp : option bool;
  md_profit_target : option Q;
  md_fallback_sell_price : option Q;
  md_fallback_token : option string;
  md_order_type : option string;
  md_token_yes : option string;
  md_token_no : option string
}.

Definition empty_metadata : Metadata :=
  mkMetadata None None None None None None None None None.

(** Python truthiness of the metadata dict ([if signal.metadata:]). *)
Definition metadata_truthy (md : Metadata) : bool :=
  match md with
  | mkMetadata None None None None None None None None None => false
  | _ => true
  end.

(** [dict.get(key, default)]. *)
Definition get_or {A} (d : A) (o : option A) : A :=
  match o with Some x => x | None => d end.

Record ScalpSignal := mkSignal {
  action : Action;
  token_id : string;
  price : Q;
  size : Q;
  urgency : Urgency;
  metadata : Metadata
}.

(** An order handed to the venue client ([poly_client.place_order]). *)
Record Order := mkOrder {
  o_token : string;
  o_side : OrderSide;
  o_price : Q;
  o_size : Q;
  o_post_only : bool
}.

(** Python's [a < b] on floats. *)
Definition Qltb (a b : Q) : bool := negb (Qle_bool b a).

(** Python's [sum(...)] over a list. *)
Definition Qsum {A} (f : A -> Q) (l : list A) : Q :=
  fold_right (fun x acc => f x + acc) 0 l.

(** [for x in xs: if cond(x): return x] *)
Fixpoint first_such {A} (f : A -> bool) (l : list A) : option A :=
  match l with
  | [] => None
  | x :: r => if f x then Some x else first_such f r
  end.

Definition nonempty {A} (l : list A) : bool :=
  match l with [] => false | _ => true end.

(** ** [multi_level_strategy_v2.py] and [btc_scalping_bot_v2.py] *)

Module V2.

Record LevelPosition := mkPos {
  side : Side;
  entry_price : Q;
  pos_size : Q;  (* [size] *)
  entry_time : Q;
  is_high_scalp : bool;
  profit_target : Q
}.

(** [MarketContext] (the [market_id] is the index of the state slice). *)
Record MarketContext := mkCtx {
  end_time : Q;
  yes_price : Q;
  no_price : Q;
  token_yes : string;
  token_no : string
}.

(** [self.positions[market_id]] and [self.completed_cycles[market_id]]. *)
Record MarketState := mkState {
  positions : list LevelPosition;
  completed_cycles : nat
}.

Definition empty_state : MarketState := mkState [] 0.

(** Strategy settings of [__init__]. *)
Definition entry_levels : list Q := [0.34; 0.24; 0.14].
Definition level_size : Q := 10.
Definition level_profit_target : Q := 0.05.
Definition high_scalp_threshold : Q := 0.85.
Definition high_scalp_size : Q := 5.
Definition high_scalp_profit_target : Q := 0.02.
Definition max_high_scalp_per_market : nat := 4.
Definition min_time_for_level_entry : Q := 420.
Definition force_unwind_time : Q := 300.
Definition max_completed_cycles : nat := 3.

Definition on_side (s : Side) (p : LevelPosition) : bool := side_eqb (side p) s.

(** [on_order_filled]: the only place that adds a position. *)
Definition on_order_filled (st : MarketState) (s : Side) (pr sz : Q)
    (md : Metadata) (now : Q) : MarketState :=
  let is_hs := get_or false (md_is_high_price_scalp md) in
  let pt := get_or level_profit_target (md_profit_target md) in
  mkState (positions st ++ [mkPos s pr sz now is_hs pt]) (completed_cycles st).

(** [on_exit_filled]: the only place that removes positions. *)
Definition on_exit_filled (st : MarketState) (s : Side) (is_hs : bool)
    : MarketState :=
  let removed := filter (on_side s) (positions st) in
  let kept := filter (fun p => negb (on_side s p)) (positions st) in
  if negb is_hs && nonempty removed
  then mkState kept (S (completed_cycles st))
  else mkState kept (completed_cycles st).

Definition count_high_scalp_positions (st : MarketState) : nat :=
  List.length (filter is_high_scalp (positions st)).

Definition get_level_positions (st : MarketState) : list LevelPosition :=
  filter (fun p => negb (is_high_scalp p)) (positions st).

Definition get_high_scalp_positions (st : MarketState) : list LevelPosition :=
  filter is_high_scalp (positions st).

Definition has_position_at_level (st : MarketState) (level : Q) : bool :=
  existsb (fun p => Qltb (Qabs (entry_price p - level)) 0.01)
    (get_level_positions st).

Definition total_size (ps : list LevelPosition) : Q := Qsum pos_size ps.

(** [sum(p.size * p.entry_price ...) / total_size].  The sources divide
    unguarded; sizes are the positive constants [level_size] and
    [high_scalp_size], so the divisor is positive on every reachable book. *)
Definition avg_entry (ps : list LevelPosition) : Q :=
  Qsum (fun p => pos_size p * entry_price p) ps / total_size ps.

(** [_check_force_unwind] *)
Definition check_force_unwind (st : MarketState) (ctx : MarketContext)
    : option ScalpSignal :=
  let lp := get_level_positions st in
  if negb (nonempty lp) then None else
  let yes_positions := filter (on_side YES) lp in
  let no_positions := filter (on_side NO) lp in
  let total_yes_size := total_size yes_positions in
  let total_no_size := total_size no_positions in
  if nonempty yes_positions
     && (negb (nonempty no_positions) || Qle_bool total_no_size total_yes_size)
  then Some (mkSignal EXIT (token_no ctx) (no_price ctx) total_yes_size CRITICAL
              {| md_side := Some YES; md_level := None;
                 md_is_high_price_scalp := Some false; md_profit_target := None;
                 md_fallback_sell_price := Some (yes_price ctx);
                 md_fallback_token := Some (token_yes ctx);
                 md_order_type := None; md_token_yes := None;
                 md_token_no := None |})
  else if nonempty no_positions
  then Some (mkSignal EXIT (token_yes ctx) (yes_price ctx) total_no_size CRITICAL
              {| md_side := Some NO; md_level := None;
                 md_is_high_price_scalp := Some false; md_profit_target := None;
                 md_fallback_sell_price := Some (no_price ctx);
                 md_fallback_token := Some (token_no ctx);
                 md_order_type := None; md_token_yes := None;
                 md_token_no := None |})
  else None.

Definition tp_metadata (s : Side) (ctx : MarketContext) : Metadata :=
  {| md_side := Some s; md_level := None;
     md_is_high_price_scalp := Some false; md_profit_target := None;
     md_fallback_sell_price := None; md_fallback_token := None;
     md_order_type := Some "BUY"%string; md_token_yes := Some (token_yes ctx);
     md_token_no := Some (token_no ctx) |}.

(** [_check_level_exit] *)
Definition check_level_exit (st : MarketState) (ctx : MarketContext)
    : option ScalpSignal :=
  let lp := get_level_positions st in
  if negb (nonempty lp) then None else
  let yes_positions := filter (on_side YES) lp in
  let no_positions := filter (on_side NO) lp in
  let yes_exit :=
    if nonempty yes_positions then
      let target_exit := 1 - (1 + level_profit_target) * avg_entry yes_positions in
      if Qle_bool (no_price ctx) target_exit
      then Some (mkSignal PLACE_TP_LIMIT (token_no ctx) (no_price ctx)
                  (total_size yes_positions) MEDIUM (tp_metadata YES ctx))
      else None
    else None in
  match yes_exit with
  | Some sg => Some sg
  | None =>
    if nonempty no_positions then
      let target_exit := 1 - (1 + level_profit_target) * avg_entry no_positions in
      if Qle_bool (yes_price ctx) target_exit
      then Some (mkSignal PLACE_TP_LIMIT (token_yes ctx) (yes_price ctx)
                  (total_size no_positions) MEDIUM (tp_metadata NO ctx))
      else None
    else None
  end.

Definition hs_exit_metadata (s : Side) (fallback_price : Q) (fallback_token : string)
    : Metadata :=
  {| md_side := Some s; md_level := None;
     md_is_high_price_scalp := Some true; md_profit_target := None;
     md_fallback_sell_price := Some fallback_price;
     md_fallback_token := Some fallback_token;
     md_order_type := None; md_token_yes := None; md_token_no := None |}.

(** [_check_high_scalp_exit] *)
Definition check_high_scalp_exit (st : MarketState) (ctx : MarketContext)
    : option ScalpSignal :=
  let hp := get_high_scalp_positions st in
  if negb (nonempty hp) then None else
  let yes_positions := filter (on_side YES) hp in
  let no_positions := filter (on_side NO) hp in
  let yes_exit :=
    if nonempty yes_positions then
      let target_exit := 1 - (1 + high_scalp_profit_target) * avg_entry yes_positions in
      if Qle_bool (no_price ctx) target_exit
      then Some (mkSignal EXIT (token_no ctx) (no_price ctx)
                  (total_size yes_positions) HIGH
                  (hs_exit_metadata YES (yes_price ctx) (token_yes ctx)))
      else None
    else None in
  match yes_exit with
  | Some sg => Some sg
  | None =>
    if nonempty no_positions then
      let target_exit := 1 - (1 + high_scalp_profit_target) * avg_entry no_positions in
      if Qle_bool (yes_price ctx) target_exit
      then Some (mkSignal EXIT (token_yes ctx) (yes_price ctx)
                  (total_size no_positions) HIGH
                  (hs_exit_metadata NO (no_price ctx) (token_no ctx)))
      else None
    else None
  end.

Definition entry_metadata (s : Side) (level : Q) (is_hs : bool) (pt : Q) : Metadata :=
  {| md_side := Some s; md_level := Some level;
     md_is_high_price_scalp := Some is_hs; md_profit_target := Some pt;
     md_fallback_sell_price := None; md_fallback_token := None;
     md_order_type := None; md_token_yes := None; md_token_no := None |}.

(** [_check_level_entry] *)
Definition check_level_entry (st : MarketState) (ctx : MarketContext) (now : Q)
    : option ScalpSignal :=
  let time_remaining := end_time ctx - now in
  if Qltb time_remaining min_time_for_level_entry then None else
  let cycles := completed_cycles st in
  if Nat.leb max_completed_cycles cycles then None else
  let lp := get_level_positions st in
  let yes_positions := filter (on_side YES) lp in
  let no_positions := filter (on_side NO) lp in
  if nonempty yes_positions && nonempty no_positions then None else
  match first_such (fun level => Qltb (yes_price ctx) level
                                 && negb (has_position_at_level st level)
                                 && negb (nonempty no_positions)) entry_levels with
  | Some level =>
      Some (mkSignal ENTER_YES (token_yes ctx) (yes_price ctx) level_size MEDIUM
              (entry_metadata YES level false level_profit_target))
  | None =>
    match first_such (fun level => Qltb (no_price ctx) level
                                   && negb (has_position_at_level st level)
                                   && negb (nonempty yes_positions)) entry_levels with
    | Some level =>
        Some (mkSignal ENTER_NO (token_no ctx) (no_price ctx) level_size MEDIUM
                (entry_metadata NO level false level_profit_target))
    | None => None
    end
  end.

(** [_check_high_scalp_entry] *)
Definition check_high_scalp_entry (st : MarketState) (ctx : MarketContext) (now : Q)
    : option ScalpSignal :=
  let time_remaining := end_time ctx - now in
  if Qle_bool force_unwind_time time_remaining then None else
  if Nat.leb max_high_scalp_per_market (count_high_scalp_positions st) then None else
  if nonempty (get_high_scalp_positions st) then None else
  if Qle_bool high_scalp_threshold (yes_price ctx)
  then Some (mkSignal ENTER_YES (token_yes ctx) (yes_price ctx) high_scalp_size HIGH
               (entry_metadata YES (yes_price ctx) true high_scalp_profit_target))
  else if Qle_bool high_scalp_threshold (no_price ctx)
  then Some (mkSignal ENTER_NO (token_no ctx) (no_price ctx) high_scalp_size HIGH
               (entry_metadata NO (no_price ctx) true high_scalp_profit_target))
  else None.

(** [evaluate_market]: first match wins. *)
Definition evaluate_market (st : MarketState) (ctx : MarketContext) (now : Q)
    : option ScalpSignal :=
  let time_remaining := end_time ctx - now in
  if Qltb time_remaining force_unwind_time then
    match check_force_unwind st ctx with
    | Some sg => Some sg
    | None =>
      match check_high_scalp_exit st ctx with
      | Some sg => Some sg
      | None => check_high_scalp_entry st ctx now
      end
    end
  else
    match check_level_exit st ctx with
    | Some sg => Some sg
    | None => check_level_entry st ctx now
    end.

(** Orders [BTCScalpingBotV2.execute_signal] hands to [place_order]:
    entries and [EXIT] are marketable ([post_only=False]) BUYs,
    [PLACE_TP_LIMIT] a post-only BUY. *)
Definition bot_orders (sg : ScalpSignal) : list Order :=
  match action sg with
  | ENTER_YES | ENTER_NO | EXIT =>
      [mkOrder (token_id sg) BUY (price sg) (size sg) false]
  | PLACE_TP_LIMIT => [mkOrder (token_id sg) BUY (price sg) (size sg) true]
  | EXIT_SELL => []
  end.

(** [BTCScalpingBotV2.execute_signal], ledger part; [ok] is the result of
    [place_order].  A placed TP limit order is treated as filled at once
    (the source's "assumed" fill). *)
Definition bot_execute (st : MarketState) (sg : ScalpSignal) (ok : bool) (now : Q)
    : MarketState :=
  let md := metadata sg in
  match action sg with
  | ENTER_YES =>
      if ok && metadata_truthy md
      then on_order_filled st (get_or YES (md_side md)) (price sg) (size sg) md now
      else st
  | ENTER_NO =>
      if ok && metadata_truthy md
      then on_order_filled st (get_or NO (md_side md)) (price sg) (size sg) md now
      else st
  | PLACE_TP_LIMIT | EXIT =>
      if ok && metadata_truthy md
      then on_exit_filled st (get_or YES (md_side md))
             (get_or false (md_is_high_price_scalp md))
      else st
  | EXIT_SELL => st
  end.

(** [BTCScalpingBotV2.evaluate_market]: skip without both asks, else
    evaluate and execute the signal. *)
Definition bot_tick (st : MarketState) (ctx : MarketContext) (now : Q) (ok : bool)
    : MarketState :=
  if Qeq_bool (yes_price ctx) 0 || Qeq_bool (no_price ctx) 0 then st else
  match evaluate_market st ctx now with
  | None => st
  | Some sg => bot_execute st sg ok now
  end.

(** Market states reachable from a fresh market through ticks. *)
Inductive reachable : MarketState -> Prop :=
| reach_init : reachable empty_state
| reach_tick st ctx now ok : reachable st -> reachable (bot_tick st ctx now ok).

(** A LEVEL entry intent: an entry whose metadata does not mark it
    HIGH_SCALP (what [on_order_filled] records as LEVEL). *)
Definition is_level_entry (sg : ScalpSignal) : bool :=
  match action sg with
  | ENTER_YES | ENTER_NO =>
      negb (get_or false (md_is_high_price_scalp (metadata sg)))
  | _ => false
  end.

Definition entry_side (sg : ScalpSignal) : Side :=
  match action sg with ENTER_NO => NO | _ => YES end.

(** [len({p.side : p in level_positions(m)})] *)
Definition level_sides (st : MarketState) : list Side :=
  nodup side_eq_dec (map side (get_level_positions st)).

Definition opposite (s : Side) : Side := match s with YES => NO | NO => YES end.

(** The ask and the token of one side in a context. *)
Definition side_price (ctx : MarketContext) (s : Side) : Q :=
  match s with YES => yes_price ctx | NO => no_price ctx end.

Definition side_token (ctx : MarketContext) (s : Side) : string :=
  match s with YES => token_yes ctx | NO => token_no ctx end.

(** The dict [get_position_summary] returns when it has a position (the
    per-position ["positions"] listing, a view of [positions], is left
    out). *)
Record PositionSummary := mkSummary {
  sum_side : Side;
  sum_size : Q;
  sum_avg_entry_price : Q;
  sum_current_exit_price : Q;
  sum_unrealized_pnl_usdc : Q;
  sum_unrealized_pnl_pct : Q;
  sum_num_positions : nat
}.

(** [get_position_summary]; [None] is [{"has_position": False}].  The
    average divides by the main side's total, which is positive whenever
    that side is chosen on a book of positive sizes. *)
Definition get_position_summary (st : MarketState) (ctx : MarketContext)
    : option PositionSummary :=
  let ps := positions st in
  if negb (nonempty ps) then None else
  let yes_positions := filter (on_side YES) ps in
  let no_positions := filter (on_side NO) ps in
  let total_yes_size := total_size yes_positions in
  let total_no_size := total_size no_positions in
  let main :=
    if Qltb total_no_size total_yes_size
    then Some (YES, total_yes_size, avg_entry yes_positions, no_price ctx)
    else if Qltb 0 total_no_size
    then Some (NO, total_no_size, avg_entry no_positions, yes_price ctx)
    else None in
  match main with
  | None => None
  | Some (main_side, tsize, avg, current_exit_price) =>
      let pnl := tsize * (1 - avg - current_exit_price) in
      let pnl_pct := if Qltb 0 avg then pnl / (tsize * avg) else 0 in
      Some (mkSummary main_side tsize avg current_exit_price pnl pnl_pct
              (List.length ps))
  end.

End V2.

(** ** [multi_level_scalping_strategy.py] (the strategy the web server runs) *)

Module V1.

Record LevelPosition := mkPos {
  level_price : Q;
  side : Side;
  entry_price : Q;
  pos_size : Q;  (* [size] *)
  entry_time : Q;
  is_high_price_scalp : bool;
  profit_target : Q
}.

(** [self.last_entry_time[market_id]]: a dict keyed by [(side, level)];
    float keys compare by value. *)
Definition EntryTimes := list ((Side * Q) * Q).

Definition key_eqb (k k' : Side * Q) : bool :=
  side_eqb (fst k) (fst k') && Qeq_bool (snd k) (snd k').

Fixpoint lookup (k : Side * Q) (d : EntryTimes) : option Q :=
  match d with
  | [] => None
  | (k', v) :: r => if key_eqb k k' then Some v else lookup k r
  end.

(** [d[k] = v]: the entry is replaced in place or appended. *)
Fixpoint assign (k : Side * Q) (v : Q) (d : EntryTimes) : EntryTimes :=
  match d with
  | [] => [(k, v)]
  | (k', v') :: r => if key_eqb k k' then (k', v) :: r else (k', v') :: assign k v r
  end.

(** The strategy's per-market state: one slice of each of its dicts. *)
Record MarketState := mkState {
  positions : list LevelPosition;
  last_entry_time : EntryTimes;
  trade_count : nat;
  high_scalp_count : nat;
  active_exit_orders : list string;
  last_tp_limit_price : option Q;
  last_exit_signal_time : option Q
}.

Definition empty_state : MarketState := mkState [] [] 0 0 [] None None.

(** Settings of [__init__] ([max_trades_per_market] as the web server
    builds it: 1, turned into 3). *)
Definition entry_levels : list Q := [0.34; 0.24; 0.14].
Definition level_sizes : list Q := [10; 10; 10].
Definition take_profit_pct : Q := 0.05.
Definition max_trades_per_market : nat := 3.

Definition calculate_order_size (i : nat) : Q := nth i level_sizes 10.

(** [for i in reversed(range(len(self.entry_levels)))]: the first
    (index, level), lowest level first, whose level is above the ask and
    has no recorded entry time ([.get(k, 0) == 0]). *)
Definition lowest_unentered (d : EntryTimes) (s : Side) (pr : Q) : option (nat * Q) :=
  first_such (fun il => Qltb pr (snd il)
                        && Qeq_bool (get_or 0 (lookup (s, snd il) d)) 0)
    (rev (combine (seq 0 (List.length entry_levels)) entry_levels)).

Definition entry_signal (s : Side) (ctx : V2.MarketContext) (il : nat * Q) : ScalpSignal :=
  let pr := match s with YES => V2.yes_price ctx | NO => V2.no_price ctx end in
  let tok := match s with YES => V2.token_yes ctx | NO => V2.token_no ctx end in
  mkSignal (match s with YES => ENTER_YES | NO => ENTER_NO end) tok pr
    (calculate_order_size (fst il)) MEDIUM
    {| md_side := Some s; md_level := Some (snd il);
       md_is_high_price_scalp := None; md_profit_target := None;
       md_fallback_sell_price := None; md_fallback_token := None;
       md_order_type := None; md_token_yes := Some (V2.token_yes ctx);
       md_token_no := Some (V2.token_no ctx) |}.

(** [_check_entry]: the signal and the state with the entry time of the
    chosen [(side, level)] recorded. *)
Definition check_entry (st : MarketState) (ctx : V2.MarketContext) (now : Q)
    : option ScalpSignal * MarketState :=
  if Nat.leb max_trades_per_market (trade_count st) then (None, st) else
  let time_remaining := V2.end_time ctx - now in
  if Qltb time_remaining 300 then (None, st) else
  if Qltb time_remaining 420 then (None, st) else
  if nonempty (active_exit_orders st) then (None, st) else
  let d := last_entry_time st in
  match lowest_unentered d YES (V2.yes_price ctx) with
  | Some il =>
      (Some (entry_signal YES ctx il),
       mkState (positions st) (assign (YES, snd il) now d) (trade_count st)
         (high_scalp_count st) (active_exit_orders st) (last_tp_limit_price st)
         (last_exit_signal_time st))
  | None =>
    match lowest_unentered d NO (V2.no_price ctx) with
    | Some il =>
        (Some (entry_signal NO ctx il),
         mkState (positions st) (assign (NO, snd il) now d) (trade_count st)
           (high_scalp_count st) (active_exit_orders st) (last_tp_limit_price st)
           (last_exit_signal_time st))
    | None => (None, st)
    end
  end.

(** [on_order_filled] *)
Definition on_order_filled (st : MarketState) (s : Side) (pr sz level : Q)
    (md : Metadata) (now : Q) : MarketState :=
  let is_high := get_or false (md_is_high_price_scalp md) in
  let pt := get_or take_profit_pct (md_profit_target md) in
  mkState (positions st ++ [mkPos level s pr sz now is_high pt])
    (last_entry_time st) (trade_count st)
    (if is_high then S (high_scalp_count st) else high_scalp_count st)
    (active_exit_orders st) (last_tp_limit_price st) (last_exit_signal_time st).

(** [on_exit_filled]: drops the side's positions, clears the exit-order
    bookkeeping, and counts a trade when no LEVEL position is left. *)
Definition on_exit_filled (st : MarketState) (s : Side) (is_hs : bool)
    : MarketState :=
  let kept := filter (fun p => negb (side_eqb (side p) s)) (positions st) in
  let level_left := filter (fun p => negb (is_high_price_scalp p)) kept in
  let tc := if negb is_hs && negb (nonempty level_left)
            then S (trade_count st) else trade_count st in
  mkState kept (last_entry_time st) tc (high_scalp_count st) [] None None.

(** High price scalping settings of [__init__]. *)
Definition enable_high_price_scalping : bool := true.
Definition high_price_threshold : Q := 0.85.
Definition high_price_scalp_size : Q := 5.
Definition high_price_profit_pct : Q := 0.02.
Definition max_high_scalp_count : nat := 4.

(** The metadata of a high price scalp entry (its key ["token_id"], which
    no code reads, is left out). *)
Definition hs_entry_metadata (s : Side) (level : Q) (ctx : V2.MarketContext)
    : Metadata :=
  {| md_side := Some s; md_level := Some level;
     md_is_high_price_scalp := Some true;
     md_profit_target := Some high_price_profit_pct;
     md_fallback_sell_price := None; md_fallback_token := None;
     md_order_type := None; md_token_yes := Some (V2.token_yes ctx);
     md_token_no := Some (V2.token_no ctx) |}.

(** [_check_high_price_scalping] *)
Definition check_high_price_scalping (st : MarketState) (ctx : V2.MarketContext)
    (now : Q) : option ScalpSignal :=
  if negb enable_high_price_scalping then None else
  let time_remaining := V2.end_time ctx - now in
  if Qle_bool 300 time_remaining then None else
  let high_scalp_positions := filter is_high_price_scalp (positions st) in
  if nonempty high_scalp_positions || nonempty (active_exit_orders st) then None else
  if Nat.leb max_high_scalp_count (high_scalp_count st) then None else
  if Qle_bool high_price_threshold (V2.yes_price ctx)
  then Some (mkSignal ENTER_YES (V2.token_yes ctx) (V2.yes_price ctx)
               high_price_scalp_size HIGH
               (hs_entry_metadata YES (V2.yes_price ctx) ctx))
  else if Qle_bool high_price_threshold (V2.no_price ctx)
  then Some (mkSignal ENTER_NO (V2.token_no ctx) (V2.no_price ctx)
               high_price_scalp_size HIGH
               (hs_entry_metadata NO (V2.no_price ctx) ctx))
  else None.

Definition side_positions (s : Side) (ps : list LevelPosition) : list LevelPosition :=
  filter (fun p => side_eqb (side p) s) ps.

Definition total_size (ps : list LevelPosition) : Q := Qsum pos_size ps.

(** [total_cost / total_size if total_size > 0 else 0] *)
Definition avg_entry (ps : list LevelPosition) : Q :=
  let ts := total_size ps in
  if Qltb 0 ts then Qsum (fun p => pos_size p * entry_price p) ps / ts else 0.

(** [_record_exit_signal] *)
Definition record_exit_signal (st : MarketState) (now : Q) : MarketState :=
  mkState (positions st) (last_entry_time st) (trade_count st)
    (high_scalp_count st) (active_exit_orders st) (last_tp_limit_price st)
    (Some now).

(** The [if yes_positions:] block of [_check_exit] for [s = YES], and the
    [if no_positions:] block for [s = NO]: the exit buys the opposite
    token at its ask. *)
Definition exit_for_side (s : Side) (ps : list LevelPosition)
    (ctx : V2.MarketContext) (time_remaining : Q) : option ScalpSignal :=
  let total := total_size ps in
  let avg := avg_entry ps in
  let current_exit_price := V2.side_price ctx (V2.opposite s) in
  let tok := V2.side_token ctx (V2.opposite s) in
  if existsb is_high_price_scalp ps then
    let target_exit := 1 - (1 + high_price_profit_pct) * avg in
    if Qle_bool current_exit_price target_exit
    then Some (mkSignal EXIT tok current_exit_price total HIGH
                {| md_side := Some s; md_level := None;
                   md_is_high_price_scalp := Some true; md_profit_target := None;
                   md_fallback_sell_price := Some (V2.side_price ctx s);
                   md_fallback_token := Some (V2.side_token ctx s);
                   md_order_type := None; md_token_yes := None;
                   md_token_no := None |})
    else None
  else
    let profit_target := if Qle_bool time_remaining 300 then 0.02 else take_profit_pct in
    let target_exit := 1 - (1 + profit_target) * avg in
    if Qle_bool current_exit_price target_exit then
      if Qle_bool time_remaining 300
      then Some (mkSignal EXIT tok current_exit_price total HIGH
                  {| md_side := Some s; md_level := None;
                     md_is_high_price_scalp := None; md_profit_target := None;
                     md_fallback_sell_price := Some (V2.side_price ctx s);
                     md_fallback_token := Some (V2.side_token ctx s);
                     md_order_type := None; md_token_yes := None;
                     md_token_no := None |})
      else Some (mkSignal PLACE_TP_LIMIT tok current_exit_price total HIGH
                  {| md_side := Some s; md_level := None;
                     md_is_high_price_scalp := None; md_profit_target := None;
                     md_fallback_sell_price := None; md_fallback_token := None;
                     md_order_type := Some "BUY"%string;
                     md_token_yes := Some (V2.token_yes ctx);
                     md_token_no := Some (V2.token_no ctx) |})
    else None.

(** [_check_exit]: the signal and the state with the exit-signal time
    recorded when a signal is returned. *)
Definition check_exit (st : MarketState) (ctx : V2.MarketContext) (now : Q)
    : option ScalpSignal * MarketState :=
  let ps := positions st in
  let time_remaining := V2.end_time ctx - now in
  if negb (nonempty ps) then (None, st) else
  let last_exit_time := get_or 0 (last_exit_signal_time st) in
  if Qltb (now - last_exit_time) 1 then (None, st) else
  let yes_positions := side_positions YES ps in
  let no_positions := side_positions NO ps in
  match (if nonempty yes_positions
         then exit_for_side YES yes_positions ctx time_remaining else None) with
  | Some sg => (Some sg, record_exit_signal st now)
  | None =>
    match (if nonempty no_positions
           then exit_for_side NO no_positions ctx time_remaining else None) with
    | Some sg => (Some sg, record_exit_signal st now)
    | None => (None, st)
    end
  end.

(** A forced unwind of side [s]: a marketable BUY of the opposite token,
    with the held token as SELL fallback (the unread keys
    ["avg_entry_price"] and ["num_positions"] are left out). *)
Definition unwind_signal (s : Side) (sz : Q) (ctx : V2.MarketContext) : ScalpSignal :=
  mkSignal EXIT (V2.side_token ctx (V2.opposite s)) (V2.side_price ctx (V2.opposite s))
    sz CRITICAL
    {| md_side := Some s; md_level := None;
       md_is_high_price_scalp := None; md_profit_target := None;
       md_fallback_sell_price := Some (V2.side_price ctx s);
       md_fallback_token := Some (V2.side_token ctx s);
       md_order_type := None; md_token_yes := None; md_token_no := None |}.

(** [_force_unwind]; [position_yes] and [position_no] are the context's
    [ctx.position_yes] and [ctx.position_no]. *)
Definition force_unwind (st : MarketState) (ctx : V2.MarketContext)
    (position_yes position_no : Q) : option ScalpSignal :=
  let ps := positions st in
  if negb (nonempty ps) then
    if Qltb 0 position_yes && Qltb 0 position_no then
      if Qle_bool position_no position_yes
      then Some (unwind_signal YES position_yes ctx)
      else Some (unwind_signal NO position_no ctx)
    else if Qltb 0 position_yes then Some (unwind_signal YES position_yes ctx)
    else if Qltb 0 position_no then Some (unwind_signal NO position_no ctx)
    else None
  else
  let level_positions := filter (fun p => negb (is_high_price_scalp p)) ps in
  if negb (nonempty level_positions) then None else
  let yes_positions := side_positions YES level_positions in
  let no_positions := side_positions NO level_positions in
  let total_yes_size := if nonempty yes_positions then total_size yes_positions else 0 in
  let total_no_size := if nonempty no_positions then total_size no_positions else 0 in
  if nonempty yes_positions
     && (negb (nonempty no_positions) || Qle_bool total_no_size total_yes_size)
  then Some (unwind_signal YES total_yes_size ctx)
  else if nonempty no_positions
  then Some (unwind_signal NO (total_size no_positions) ctx)
  else None.

(** [evaluate_market]: the signal and the strategy state after it. *)
Definition evaluate_market (st : MarketState) (ctx : V2.MarketContext)
    (position_yes position_no now : Q) : option ScalpSignal * MarketState :=
  let time_remaining := V2.end_time ctx - now in
  if Qle_bool time_remaining 300 then
    match (if nonempty (positions st)
           then force_unwind st ctx position_yes position_no else None) with
    | Some sg => (Some sg, st)
    | None => (check_high_price_scalping st ctx now, st)
    end
  else
    match check_exit st ctx now with
    | (Some sg, st') => (Some sg, st')
    | (None, st') => check_entry st' ctx now
    end.

End V1.

(** ** [btc_web_server.py]: [WebBTCScalpingBot.execute_signal], exit side *)

Module Web.

(** What the handler does to the outside world, in order. *)
Inductive Effect :=
| CancelOrder (order_id : string)   (* [poly_client.cancel_order] *)
| QueryBalance                      (* [poly_client.get_usdc_balance] *)
| PlaceOrder (o : Order)            (* [place_order] on the venue *)
| TradeEvent (success : bool).      (* [on_trade_executed] of an EXIT *)

(** The answer of [poly_client.place_order] for the TP limit order: a
    response dict (with or without ["orderID"]), a falsy response, or an
    exception. *)
Inductive TpResponse :=
| Resp (order_id : option string)
| NoResp
| Raised.

(** The bot's state for one market: the strategy's slice, the
    [MarketContext] position fields, and the bot's trade statistics. *)
Record WebState := mkWeb {
  strat : V1.MarketState;
  position_yes : Q;
  avg_price_yes : Q;
  position_no : Q;
  avg_price_no : Q;
  total_trades : nat;
  total_pnl : Q;
  winning_trades : nat
}.

Definition set_active (st : WebState) (a : list string) : WebState :=
  let s := strat st in
  mkWeb (V1.mkState (V1.positions s) (V1.last_entry_time s) (V1.trade_count s)
           (V1.high_scalp_count s) a (V1.last_tp_limit_price s)
           (V1.last_exit_signal_time s))
    (position_yes st) (avg_price_yes st) (position_no st) (avg_price_no st)
    (total_trades st) (total_pnl st) (winning_trades st).

Definition active (st : WebState) : list string := V1.active_exit_orders (strat st).

(** Python truthiness of the two metadata values. *)
Definition str_truthy (o : option string) : bool :=
  match o with Some t => negb (String.eqb t EmptyString) | None => false end.
Definition q_truthy (o : option Q) : bool :=
  match o with Some q => negb (Qeq_bool q 0) | None => false end.

(** [signal.action == "PLACE_TP_LIMIT"]; [trading_enabled] is
    [config.trading_enabled], [balance] what [get_usdc_balance] returns. *)
Definition tp_handler (trading_enabled : bool) (st : WebState) (sg : ScalpSignal)
    (balance : Q) (resp : TpResponse) : list Effect * WebState :=
  if negb trading_enabled then ([], st) else
  let order_side :=
    if String.eqb (get_or "BUY"%string (md_order_type (metadata sg))) "SELL"%string
    then SELL else BUY in
  if nonempty (active st) then ([], st) else
  let place (pre : list Effect) :=
    let o := mkOrder (token_id sg) order_side (price sg) (size sg) true in
    let effs := pre ++ [PlaceOrder o] in
    match resp with
    | Resp oid =>
        (effs, set_active st (active st ++
                 [get_or (String.append "tp-" (String.substring 0 8 (token_id sg))) oid]))
    | NoResp => (effs, set_active st (active st ++ ["failed-order"%string]))
    | Raised => (effs, st)
    end in
  match order_side with
  | BUY =>
      if Qltb balance (size sg * price sg)
      then ([QueryBalance], set_active st (active st ++ ["insufficient-balance"%string]))
      else place [QueryBalance]
  | SELL => place []
  end.

(** [signal.action == "EXIT" or "EXIT_SELL"]; [venue o] is the boolean
    [self.place_order] returns for order [o] (a marketable order,
    [post_only=False]). *)
Definition exit_handler (trading_enabled : bool) (st : WebState) (sg : ScalpSignal)
    (balance : Q) (venue : Order -> bool) : list Effect * WebState :=
  if negb trading_enabled then ([], st) else
  let md := metadata sg in
  let cancels := map CancelOrder (active st) in
  let st1 := set_active st [] in
  (* balance check: [EXIT] may turn into [EXIT_SELL] *)
  let '(queried, act, tok, pr, oside) :=
    match action sg with
    | EXIT =>
        if Qltb balance (size sg * price sg)
        then (true, EXIT_SELL, get_or (token_id sg) (md_fallback_token md),
              get_or (price sg) (md_fallback_sell_price md), SELL)
        else (true, EXIT, token_id sg, price sg, BUY)
    | a => (false, a, token_id sg, price sg, SELL)
    end in
  let o1 := mkOrder tok oside pr (size sg) false in
  let ok1 := venue o1 in
  (* SELL fallback after a failed unwind BUY *)
  let '(fallback_orders, success, act', tok', pr') :=
    if negb ok1 && action_eqb act EXIT && order_side_eqb oside BUY then
      if str_truthy (md_fallback_token md) && q_truthy (md_fallback_sell_price md) then
        let ft := get_or EmptyString (md_fallback_token md) in
        let fp := get_or 0 (md_fallback_sell_price md) in
        let o2 := mkOrder ft SELL fp (size sg) false in
        if venue o2 then ([o2], true, EXIT_SELL, ft, fp)
        else ([o2], false, act, tok, pr)
      else ([], false, act, tok, pr)
    else ([], ok1, act, tok, pr) in
  let effs := cancels ++ (if queried then [QueryBalance] else [])
              ++ map PlaceOrder (o1 :: fallback_orders) in
  (* PnL and side come from the context's positions *)
  let yes_side := Qltb 0 (position_yes st1) in
  let entry := if yes_side then avg_price_yes st1 else avg_price_no st1 in
  let pnl := if action_eqb act' EXIT_SELL then size sg * (pr' - entry)
             else size sg * (1 - entry - pr') in
  let sd := if yes_side then YES else NO in
  if success then
    let py := if yes_side then Qmax 0 (position_yes st1 - size sg) else position_yes st1 in
    let ay := if yes_side && Qeq_bool py 0 then 0 else avg_price_yes st1 in
    let pn := if yes_side then position_no st1 else Qmax 0 (position_no st1 - size sg) in
    let an := if negb yes_side && Qeq_bool pn 0 then 0 else avg_price_no st1 in
    (effs ++ [TradeEvent true],
     mkWeb (V1.on_exit_filled (strat st1) sd false) py ay pn an
       (S (total_trades st1)) (total_pnl st1 + pnl)
       (if Qltb 0 pnl then S (winning_trades st1) else winning_trades st1))
  else (effs ++ [TradeEvent false], st1).

(** The orders an effect trace places, in order. *)
Fixpoint placed (effs : list Effect) : list Order :=
  match effs with
  | [] => []
  | PlaceOrder o :: r => o :: placed r
  | _ :: r => placed r
  end.

(** [signal.action == "ENTER_YES"] and ["ENTER_NO"]: the order placed and
    the new state.  [venue o] is what [place_order] returns.  On a fill the
    context position grows and its average is recomputed; the division
    raises [ZeroDivisionError] when the new position is [0], after the
    position has been written. *)
Definition enter_handler (trading_enabled : bool) (st : WebState) (sg : ScalpSignal)
    (venue : Order -> bool) (now : Q) : list Order * WebState :=
  if negb trading_enabled then ([], st) else
  let md := metadata sg in
  let o := mkOrder (token_id sg) BUY (price sg) (size sg) false in
  let fill (s : Side) :=
    if metadata_truthy md
    then V1.on_order_filled (strat st) (get_or s (md_side md)) (price sg) (size sg)
           (get_or 0 (md_level md)) md now
    else strat st in
  match action sg with
  | ENTER_YES =>
      if venue o then
        let total_cost := position_yes st * avg_price_yes st + size sg * price sg in
        let py := position_yes st + size sg in
        if Qeq_bool py 0
        then ([o], mkWeb (strat st) py (avg_price_yes st) (position_no st)
                     (avg_price_no st) (total_trades st) (total_pnl st)
                     (winning_trades st))
        else ([o], mkWeb (fill YES) py (total_cost / py) (position_no st)
                     (avg_price_no st) (total_trades st) (total_pnl st)
                     (winning_trades st))
      else ([o], st)
  | ENTER_NO =>
      if venue o then
        let total_cost := position_no st * avg_price_no st + size sg * price sg in
        let pn := position_no st + size sg in
        if Qeq_bool pn 0
        then ([o], mkWeb (strat st) (position_yes st) (avg_price_yes st) pn
                     (avg_price_no st) (total_trades st) (total_pnl st)
                     (winning_trades st))
        else ([o], mkWeb (fill NO) (position_yes st) (avg_price_yes st) pn
                     (total_cost / pn) (total_trades st) (total_pnl st)
                     (winning_trades st))
      else ([o], st)
  | _ => ([], st)
  end.

Definition with_strat (st : WebState) (s : V1.MarketState) : WebState :=
  mkWeb s (position_yes st) (avg_price_yes st) (position_no st) (avg_price_no st)
    (total_trades st) (total_pnl st) (winning_trades st).

(** One evaluation of a market by the web bot ([BTCScalpingBot.evaluate_market]
    and the overriding [execute_signal]): skipped without both asks, else the
    strategy is evaluated on the context's asks and positions and its signal
    dispatched to the handler of its action.  [balance], [resp] and [venue]
    are the answers of the venue client. *)
Definition tick (trading_enabled : bool) (st : WebState) (ctx : V2.MarketContext)
    (now balance : Q) (resp : TpResponse) (venue : Order -> bool) : WebState :=
  if Qeq_bool (V2.yes_price ctx) 0 || Qeq_bool (V2.no_price ctx) 0 then st else
  let '(sg_opt, s') :=
    V1.evaluate_market (strat st) ctx (position_yes st) (position_no st) now in
  let st1 := with_strat st s' in
  match sg_opt with
  | None => st1
  | Some sg =>
      match action sg with
      | ENTER_YES | ENTER_NO => snd (enter_handler trading_enabled st1 sg venue now)
      | PLACE_TP_LIMIT => snd (tp_handler trading_enabled st1 sg balance resp)
      | EXIT | EXIT_SELL => snd (exit_handler trading_enabled st1 sg balance venue)
      end
  end.

Definition init : WebState := mkWeb V1.empty_state 0 0 0 0 0 0 0.

(** Bot states reachable from a fresh market through evaluations. *)
Inductive reachable (trading_enabled : bool) : WebState -> Prop :=
| reach_init : reachable trading_enabled init
| reach_tick st ctx now balance resp venue :
    reachable trading_enabled st ->
    reachable trading_enabled (tick trading_enabled st ctx now balance resp venue).

End Web.

(** ** [tracker.py]: [OrderBook] and the price-change path of
    [MarketDataStreamer._process_item] *)

Module Book.

(** A [Dict[float, float]] from price to size; float keys compare by
    value, and a dict holds each key once. *)
Definition Dict := list (Q * Q).

Fixpoint lookup (p : Q) (m : Dict) : option Q :=
  match m with
  | [] => None
  | (k, v) :: r => if Qeq_bool p k then Some v else lookup p r
  end.

(** [p in side_map] *)
Definition mem (p : Q) (m : Dict) : bool :=
  match lookup p m with Some _ => true | None => false end.

(** [side_map[p] = s]: replaced in place, or appended. *)
Fixpoint set (p s : Q) (m : Dict) : Dict :=
  match m with
  | [] => [(p, s)]
  | (k, v) :: r => if Qeq_bool p k then (k, s) :: r else (k, v) :: set p s r
  end.

(** [del side_map[p]] *)
Definition remove (p : Q) (m : Dict) : Dict :=
  filter (fun kv => negb (Qeq_bool p (fst kv))) m.

(** One entry of the [updates] list, after [float(u.get('price', 0))] and
    [float(u.get('size', 0))]; [None] when either conversion raises, which
    the loop skips. *)
Definition update_level (m : Dict) (u : option (Q * Q)) : Dict :=
  match u with
  | None => m
  | Some (p, s) =>
      if Qeq_bool s 0 then (if mem p m then remove p m else m)
      else set p s m
  end.

(** [_update_side] *)
Definition update_side (m : Dict) (us : list (option (Q * Q))) : Dict :=
  fold_left update_level us m.

Record OrderBook := mkBook { bids : Dict; asks : Dict }.

(** [OrderBook.update(bids, asks)]: the snapshot path calls it with the
    message's two lists, the price-change path with one of them empty. *)
Definition update (ob : OrderBook) (bid_updates ask_updates : list (option (Q * Q)))
    : OrderBook :=
  mkBook (update_side (bids ob) bid_updates) (update_side (asks ob) ask_updates).

(** One entry of [price_changes] of a known [asset_id]: its [side], its
    [price] ([None] when missing or empty, i.e. falsy) and its [size]
    ([None] when [float] of it raises). *)
Record PriceChange := mkChange {
  c_side : string;
  c_price : option Q;
  c_size : option Q
}.

Definition apply_change (ob : OrderBook) (c : PriceChange) : OrderBook :=
  match c_price c with
  | None => ob
  | Some p =>
      let u := match c_size c with Some s => Some (p, s) | None => None end in
      if String.eqb (c_side c) "SELL" then update ob [] [u]
      else if String.eqb (c_side c) "BUY" then update ob [u] []
      else ob
  end.

(** [get_best_bid]: [max(self._bids.keys())], [0.0] for an empty side;
    [max] keeps the first key and replaces it by every later key that is
    greater. *)
Definition get_best_bid (ob : OrderBook) : Q :=
  match bids ob with
  | [] => 0
  | (k, _) :: r => fold_left (fun m kv => if Qltb m (fst kv) then fst kv else m) r k
  end.

(** [get_best_ask]: [min(self._asks.keys())], [0.0] for an empty side. *)
Definition get_best_ask (ob : OrderBook) : Q :=
  match asks ob with
  | [] => 0
  | (k, _) :: r => fold_left (fun m kv => if Qltb (fst kv) m then fst kv else m) r k
  end.

(** [MarketDataStreamer.order_books]: token id to book. *)
Definition Books := list (string * OrderBook).

Fixpoint find_book (t : string) (bs : Books) : option OrderBook :=
  match bs with
  | [] => None
  | (t', ob) :: r => if String.eqb t t' then Some ob else find_book t r
  end.

(** [MarketDataStreamer.get_price]: [(best_bid, best_ask)], [(0.0, 0.0)]
    for a token without a book. *)
Definition get_price (bs : Books) (t : string) : Q * Q :=
  match find_book t bs with
  | Some ob => (get_best_bid ob, get_best_ask ob)
  | None => (0, 0)
  end.

End Book.

(** ** [BTCScalpingBotV2.evaluate_market] reading its prices from the
    streamer *)

Module BotV2.

(** The context's prices become the two tokens' best asks; [V2.bot_tick]
    then skips the market when either is [0]. *)
Definition evaluate_market (bs : Book.Books) (st : V2.MarketState)
    (ctx : V2.MarketContext) (now : Q) (ok : bool) : V2.MarketState :=
  let ask_yes := snd (Book.get_price bs (V2.token_yes ctx)) in
  let ask_no := snd (Book.get_price bs (V2.token_no ctx)) in
  V2.bot_tick st (V2.mkCtx (V2.end_time ctx) ask_yes ask_no (V2.token_yes ctx)
                    (V2.token_no ctx)) now ok.

End BotV2.

(** * Proofs *)

(** ** General facts *)

Lemma first_such_some {A} (f : A -> bool) l x :
  first_such f l = Some x -> In x l /\ f x = true.
Proof.
  induction l as [|y r IH]; simpl; [discriminate|].
  destruct (f y) eqn:E; intros H.
  - inversion H; subst; auto.
  - destruct (IH H); auto.
Qed.

Lemma filter_comm {A} (f g : A -> bool) l :
  filter f (filter g l) = filter g (filter f l).
Proof.
  induction l as [|x r IH]; simpl; [reflexivity|].
  destruct (g x) eqn:Eg, (f x) eqn:Ef; simpl; rewrite ?Eg, ?Ef, IH; reflexivity.
Qed.

Lemma filter_nil_forall {A} (f : A -> bool) l :
  filter f l = [] -> forall x, In x l -> f x = false.
Proof.
  induction l as [|y r IH]; simpl; [tauto|].
  destruct (f y) eqn:E; [discriminate|].
  intros H x [<-|Hx]; auto.
Qed.

Lemma nonempty_false {A} (l : list A) : nonempty l = false -> l = [].
Proof. destruct l; simpl; congruence. Qed.

Lemma nodup_single_valued (l : list Side) s :
  (forall x, In x l -> x = s) -> (List.length (nodup side_eq_dec l) <= 1)%nat.
Proof.
  induction l as [|a r IH]; simpl; intros Hall; [lia|].
  destruct (in_dec side_eq_dec a r) as [Hin|Hnin].
  - apply IH; auto.
  - destruct r as [|b r'].
    + simpl. lia.
    + exfalso. apply Hnin.
      rewrite (Hall a (or_introl eq_refl)), <- (Hall b (or_intror (or_introl eq_refl))).
      left; reflexivity.
Qed.

Ltac split_opt :=
  repeat match goal with
  | H : Some _ = Some _ |- _ => injection H as H; subst
  | H : None = Some _ |- _ => discriminate H
  | H : context [if ?c then _ else _] |- _ => destruct c eqn:?
  | H : context [match ?o with Some _ => _ | None => _ end] |- _ =>
      destruct o eqn:?
  end.

(** ** The v2 strategy *)

Module V2Facts.
Import V2.

Lemma check_force_unwind_action st ctx sg :
  check_force_unwind st ctx = Some sg -> action sg = EXIT.
Proof. unfold check_force_unwind; intros H; split_opt; reflexivity. Qed.

Lemma check_high_scalp_exit_action st ctx sg :
  check_high_scalp_exit st ctx = Some sg -> action sg = EXIT.
Proof. unfold check_high_scalp_exit; intros H; split_opt; reflexivity. Qed.

Lemma check_level_exit_action st ctx sg :
  check_level_exit st ctx = Some sg -> action sg = PLACE_TP_LIMIT.
Proof. unfold check_level_exit; intros H; split_opt; reflexivity. Qed.

Lemma check_high_scalp_entry_spec st ctx now sg :
  check_high_scalp_entry st ctx now = Some sg ->
  md_is_high_price_scalp (metadata sg) = Some true /\
  size sg = high_scalp_size /\
  (action sg = ENTER_YES \/ action sg = ENTER_NO).
Proof. unfold check_high_scalp_entry; intros H; split_opt; simpl; auto. Qed.

Lemma check_level_entry_spec st ctx now sg :
  check_level_entry st ctx now = Some sg ->
  exists s l,
    In l entry_levels /\
    Qle_bool min_time_for_level_entry (end_time ctx - now) = true /\
    (completed_cycles st < max_completed_cycles)%nat /\
    filter (on_side (opposite s)) (get_level_positions st) = [] /\
    has_position_at_level st l = false /\
    Qltb (side_price ctx s) l = true /\
    sg = mkSignal (match s with YES => ENTER_YES | NO => ENTER_NO end)
           (side_token ctx s) (side_price ctx s) level_size MEDIUM
           (entry_metadata s l false level_profit_target).
Proof.
  unfold check_level_entry; intros H.
  destruct (Qltb (end_time ctx - now) min_time_for_level_entry) eqn:Et;
    [discriminate|].
  destruct (Nat.leb max_completed_cycles (completed_cycles st)) eqn:Ec;
    [discriminate|].
  apply Nat.leb_gt in Ec.
  unfold Qltb in Et; apply negb_false_iff in Et.
  destruct (nonempty _ && nonempty _) eqn:Eb; [discriminate|].
  destruct (first_such _ entry_levels) as [l|] eqn:Ey.
  - injection H as <-.
    apply first_such_some in Ey as [Hin Hf].
    apply andb_prop in Hf as [Hf Hno]; apply andb_prop in Hf as [Hlt Hpos].
    apply negb_true_iff in Hno, Hpos. apply nonempty_false in Hno.
    exists YES, l; repeat split; auto.
  - match type of H with context [first_such ?f entry_levels] =>
      destruct (first_such f entry_levels) as [l|] eqn:En; [|discriminate]
    end.
    injection H as <-.
    apply first_such_some in En as [Hin Hf].
    apply andb_prop in Hf as [Hf Hyes]; apply andb_prop in Hf as [Hlt Hpos].
    apply negb_true_iff in Hyes, Hpos. apply nonempty_false in Hyes.
    exists NO, l; repeat split; auto.
Qed.

(** Every intent [evaluate_market] emits comes from one of the five
    checks; entries come from the two entry checks only. *)
Lemma evaluate_market_entry st ctx now sg :
  evaluate_market st ctx now = Some sg ->
  action sg = ENTER_YES \/ action sg = ENTER_NO ->
  (Qltb (end_time ctx - now) force_unwind_time = true /\
   check_high_scalp_entry st ctx now = Some sg) \/
  (Qltb (end_time ctx - now) force_unwind_time = false /\
   check_level_entry st ctx now = Some sg).
Proof.
  unfold evaluate_market; intros H Ha.
  destruct (Qltb (end_time ctx - now) force_unwind_time) eqn:Et.
  - destruct (check_force_unwind st ctx) eqn:E1.
    { injection H as <-. apply check_force_unwind_action in E1.
      rewrite E1 in Ha; destruct Ha; discriminate. }
    destruct (check_high_scalp_exit st ctx) eqn:E2.
    { injection H as <-. apply check_high_scalp_exit_action in E2.
      rewrite E2 in Ha; destruct Ha; discriminate. }
    left; auto.
  - destruct (check_level_exit st ctx) eqn:E1.
    { injection H as <-. apply check_level_exit_action in E1.
      rewrite E1 in Ha; destruct Ha; discriminate. }
    right; auto.
Qed.

Lemma level_positions_exit_filled st s b :
  get_level_positions (on_exit_filled st s b) =
  filter (fun p => negb (on_side s p)) (get_level_positions st).
Proof.
  unfold on_exit_filled, get_level_positions.
  destruct (negb b && _); simpl; apply filter_comm.
Qed.

(** At most one side holds LEVEL positions. *)
Definition one_sided (st : MarketState) : Prop :=
  filter (on_side YES) (get_level_positions st) = [] \/
  filter (on_side NO) (get_level_positions st) = [].

Lemma one_sided_level_sides st :
  one_sided st -> (List.length (level_sides st) <= 1)%nat.
Proof.
  unfold level_sides; intros [H|H]; [apply nodup_single_valued with NO
                                    | apply nodup_single_valued with YES];
  intros x Hx; apply in_map_iff in Hx as [p [<- Hp]];
  apply (filter_nil_forall _ _ H) in Hp; unfold on_side in Hp;
  destruct (side p); simpl in Hp; congruence.
Qed.

Lemma one_sided_add st p c :
  one_sided st ->
  is_high_scalp p = true \/
  filter (on_side (opposite (side p))) (get_level_positions st) = [] ->
  one_sided (mkState (positions st ++ [p]) c).
Proof.
  unfold one_sided, get_level_positions; simpl; rewrite !filter_app; simpl.
  intros Hst [Hhs|Hop].
  - rewrite Hhs; simpl; rewrite !app_nil_r; exact Hst.
  - destruct (is_high_scalp p); simpl; rewrite ?app_nil_r; [exact Hst|].
    unfold on_side in *; destruct (side p); simpl in *;
      [right|left]; rewrite app_nil_r; exact Hop.
Qed.

Lemma one_sided_exit st s b :
  one_sided st -> one_sided (on_exit_filled st s b).
Proof.
  unfold one_sided; rewrite level_positions_exit_filled, !(filter_comm (on_side _)).
  intros [H|H]; [left|right]; rewrite H; reflexivity.
Qed.

(** An entry emitted by [evaluate_market] is HIGH_SCALP, or it is a LEVEL
    entry on [entry_side] while the opposite side holds no LEVEL position. *)
Lemma evaluate_market_entry_guard st ctx now sg :
  evaluate_market st ctx now = Some sg ->
  action sg = ENTER_YES \/ action sg = ENTER_NO ->
  md_is_high_price_scalp (metadata sg) = Some true \/
  (md_is_high_price_scalp (metadata sg) = Some false /\
   md_side (metadata sg) = Some (entry_side sg) /\
   filter (on_side (opposite (entry_side sg))) (get_level_positions st) = []).
Proof.
  intros H Ha.
  destruct (evaluate_market_entry _ _ _ _ H Ha) as [[_ E]|[_ E]].
  - left; apply (check_high_scalp_entry_spec _ _ _ _ E).
  - right. apply check_level_entry_spec in E
      as (s & l & _ & _ & _ & Hop & _ & _ & ->).
    destruct s; simpl in *; auto.
Qed.

Lemma bot_tick_one_sided st ctx now ok :
  one_sided st -> one_sided (bot_tick st ctx now ok).
Proof.
  intros Hst; unfold bot_tick.
  destruct (_ || _); [exact Hst|].
  destruct (evaluate_market st ctx now) as [sg|] eqn:Ev; [|exact Hst].
  unfold bot_execute.
  destruct (action sg) eqn:Ea;
    try (destruct (ok && metadata_truthy (metadata sg)); [|exact Hst]);
    try exact Hst; try (apply one_sided_exit; exact Hst);
  (apply one_sided_add; [exact Hst|]; simpl;
   destruct (evaluate_market_entry_guard _ _ _ _ Ev (ltac:(auto)))
     as [Hh|(Hh & Hs & Hop)];
   [left; rewrite Hh; reflexivity
   |right; unfold entry_side in *; rewrite Ea in *; rewrite Hs; exact Hop]).
Qed.

Lemma reachable_one_sided st : reachable st -> one_sided st.
Proof.
  induction 1.
  - left; reflexivity.
  - apply bot_tick_one_sided; assumption.
Qed.

Lemma Forall_filter_sub {A} (P : A -> Prop) f l :
  Forall P l -> Forall P (filter f l).
Proof.
  rewrite !Forall_forall; intros H x Hx; apply filter_In in Hx as [Hx _]; auto.
Qed.

(** Every position of a reachable book has a positive size. *)
Lemma reachable_sizes_pos st :
  reachable st -> Forall (fun p => 0 < pos_size p) (positions st).
Proof.
  induction 1 as [|st ctx now ok Hr IH]; [constructor|].
  unfold bot_tick.
  destruct (_ || _); [exact IH|].
  destruct (evaluate_market st ctx now) as [sg|] eqn:Ev; [|exact IH].
  assert (Hsz : action sg = ENTER_YES \/ action sg = ENTER_NO ->
                size sg = level_size \/ size sg = high_scalp_size).
  { intros Ha.
    destruct (evaluate_market_entry _ _ _ _ Ev Ha) as [[_ E]|[_ E]].
    - right; apply (check_high_scalp_entry_spec _ _ _ _ E).
    - left. apply check_level_entry_spec in E as (s & l & _ & _ & _ & _ & _ & _ & ->).
      reflexivity. }
  unfold bot_execute.
  destruct (action sg) eqn:Ea;
    try (destruct (ok && metadata_truthy (metadata sg)); [|exact IH]);
    try exact IH;
    try (unfold on_exit_filled; destruct (negb _ && _); apply Forall_filter_sub; exact IH);
  (simpl; apply Forall_app; split; [exact IH|]; constructor; [|constructor]; simpl;
   destruct (Hsz (ltac:(auto))) as [->| ->]; reflexivity).
Qed.

Lemma total_size_nonneg l :
  Forall (fun p => 0 < pos_size p) l -> 0 <= total_size l.
Proof.
  induction 1 as [|p r Hp _ IH]; unfold total_size in *; simpl;
    [apply Qle_refl|].
  apply Qle_trans with (0 + 0); [apply Qle_refl|].
  apply Qplus_le_compat; [apply Qlt_le_weak|]; assumption.
Qed.

Lemma total_size_pos p l :
  Forall (fun p => 0 < pos_size p) (p :: l) -> 0 < total_size (p :: l).
Proof.
  intros H; inversion H as [|? ? Hp Hl]; subst.
  unfold total_size; simpl.
  apply Qlt_le_trans with (pos_size p + 0).
  - rewrite Qplus_0_r; exact Hp.
  - apply Qplus_le_compat; [apply Qle_refl|apply (total_size_nonneg _ Hl)].
Qed.

Lemma filter_sides_nil l :
  filter (on_side YES) l = [] -> filter (on_side NO) l = [] -> l = [].
Proof.
  destruct l as [|p r]; [reflexivity|]; simpl.
  unfold on_side; destruct (side p); simpl; discriminate.
Qed.

Lemma evaluate_market_tp st ctx now sg :
  evaluate_market st ctx now = Some sg -> action sg = PLACE_TP_LIMIT ->
  check_level_exit st ctx = Some sg.
Proof.
  unfold evaluate_market; intros H Ha.
  destruct (Qltb _ _).
  - destruct (check_force_unwind st ctx) eqn:E1.
    { injection H as <-; apply check_force_unwind_action in E1; congruence. }
    destruct (check_high_scalp_exit st ctx) eqn:E2.
    { injection H as <-; apply check_high_scalp_exit_action in E2; congruence. }
    apply check_high_scalp_entry_spec in H as (_ & _ & [E|E]); congruence.
  - destruct (check_level_exit st ctx) eqn:E1; [exact H|].
    apply check_level_entry_spec in H as (s & l & _ & _ & _ & _ & _ & _ & ->).
    destruct s; discriminate.
Qed.

Lemma check_level_exit_spec st ctx sg :
  check_level_exit st ctx = Some sg ->
  exists s,
    let ps := filter (on_side s) (get_level_positions st) in
    ps <> [] /\ md_side (metadata sg) = Some s /\
    token_id sg = side_token ctx (opposite s) /\
    price sg = side_price ctx (opposite s) /\
    size sg = total_size ps /\
    price sg <= 1 - (1 + level_profit_target) * avg_entry ps.
Proof.
  unfold check_level_exit; intros H.
  destruct (nonempty (get_level_positions st)); [|discriminate]; simpl in H.
  destruct (filter (on_side YES) (get_level_positions st)) as [|y ys] eqn:EY.
  - destruct (filter (on_side NO) (get_level_positions st)) as [|n ns] eqn:EN;
      simpl in H; [discriminate|].
    destruct (Qle_bool _ _) eqn:Hle; [|discriminate].
    injection H as <-. apply Qle_bool_iff in Hle.
    exists NO; cbv zeta; rewrite EN; repeat split;
      solve [discriminate | reflexivity | exact Hle | exact Hle2].
  - simpl in H.
    destruct (Qle_bool (no_price ctx) _) eqn:Hle.
    + injection H as <-. apply Qle_bool_iff in Hle.
      exists YES; cbv zeta; rewrite EY; repeat split;
      solve [discriminate | reflexivity | exact Hle].
    + destruct (filter (on_side NO) (get_level_positions st)) as [|n ns] eqn:EN;
        simpl in H; [discriminate|].
      destruct (Qle_bool (yes_price ctx) _) eqn:Hle2; [|discriminate].
      injection H as <-. apply Qle_bool_iff in Hle2.
      exists NO; cbv zeta; rewrite EN; repeat split;
      solve [discriminate | reflexivity | exact Hle | exact Hle2].
Qed.

Lemma first_such_ext {A} (f g : A -> bool) l :
  (forall x, f x = g x) -> first_such f l = first_such g l.
Proof.
  intros Hfg; induction l as [|x r IH]; simpl; [reflexivity|].
  rewrite Hfg, IH; reflexivity.
Qed.

(** The level of a LEVEL entry is the first one of [entry_levels], in the
    order of the list, whose trigger holds for the chosen side. *)
Lemma check_level_entry_first st ctx now sg :
  check_level_entry st ctx now = Some sg ->
  exists s l,
    sg = mkSignal (match s with YES => ENTER_YES | NO => ENTER_NO end)
           (side_token ctx s) (side_price ctx s) level_size MEDIUM
           (entry_metadata s l false level_profit_target) /\
    first_such (fun l' => Qltb (side_price ctx s) l'
                          && negb (has_position_at_level st l'))
      entry_levels = Some l.
Proof.
  unfold check_level_entry; intros H.
  destruct (Qltb (end_time ctx - now) min_time_for_level_entry);
    [discriminate|].
  destruct (Nat.leb max_completed_cycles (completed_cycles st));
    [discriminate|].
  destruct (nonempty _ && nonempty _); [discriminate|].
  destruct (first_such _ entry_levels) as [l|] eqn:Ey.
  - injection H as <-.
    pose proof (first_such_some _ _ _ Ey) as [_ Hf].
    apply andb_prop in Hf as [_ Hno]; apply negb_true_iff in Hno.
    rewrite Hno in Ey.
    exists YES, l; split; [reflexivity|].
    rewrite <- Ey; apply first_such_ext; intros x; simpl.
    rewrite andb_true_r; reflexivity.
  - match type of H with context [first_such ?f entry_levels] =>
      destruct (first_such f entry_levels) as [l|] eqn:En; [|discriminate]
    end.
    injection H as <-.
    pose proof (first_such_some _ _ _ En) as [_ Hf].
    apply andb_prop in Hf as [_ Hyes]; apply negb_true_iff in Hyes.
    rewrite Hyes in En.
    exists NO, l; split; [reflexivity|].
    rewrite <- En; apply first_such_ext; intros x; simpl.
    rewrite andb_true_r; reflexivity.
Qed.

Lemma evaluate_market_level_entry st ctx now sg :
  evaluate_market st ctx now = Some sg -> is_level_entry sg = true ->
  check_level_entry st ctx now = Some sg.
Proof.
  intros H Hl.
  assert (Ha : action sg = ENTER_YES \/ action sg = ENTER_NO).
  { unfold is_level_entry in Hl; destruct (action sg); auto; discriminate. }
  destruct (evaluate_market_entry _ _ _ _ H Ha) as [[_ E]|[_ E]]; [|exact E].
  apply check_high_scalp_entry_spec in E as [Hh _].
  unfold is_level_entry in Hl; rewrite Hh in Hl.
  destruct (action sg); discriminate.
Qed.

Lemma Qltb_false_not_lt a b : Qltb a b = false -> ~ a < b.
Proof.
  unfold Qltb; intros H; apply negb_false_iff, Qle_bool_iff in H.
  intros Hlt; apply (Qlt_not_le _ _ Hlt H).
Qed.

Lemma has_position_at_level_false st l :
  has_position_at_level st l = false ->
  forall p, In p (get_level_positions st) -> ~ Qabs (entry_price p - l) < 0.01.
Proof.
  unfold has_position_at_level; intros H p Hp.
  apply Qltb_false_not_lt.
  destruct (Qltb (Qabs (entry_price p - l)) 0.01) eqn:E; [|reflexivity].
  rewrite <- H; symmetry; apply existsb_exists; exists p; auto.
Qed.

End V2Facts.

(** ** Claims on the v2 strategy *)

Import V2Facts.

(** C1. No hedged LEVEL book: on every market state reachable from a fresh
    market through [bot_tick] (FSM evaluation, then the fill or exit-fill
    ack of a successful order), the LEVEL positions are on at most one side,
    [len({p.side | p in level_positions}) <= 1]; and the FSM never emits a
    LEVEL entry for a side while the opposite side holds a LEVEL
    position. *)
Theorem no_hedged_level_book :
  (forall st, V2.reachable st -> (List.length (V2.level_sides st) <= 1)%nat) /\
  (forall st ctx now sg,
     V2.evaluate_market st ctx now = Some sg ->
     V2.is_level_entry sg = true ->
     filter (V2.on_side (V2.opposite (V2.entry_side sg)))
       (V2.get_level_positions st) = []).
Proof.
  split.
  - intros st Hr; apply one_sided_level_sides, reachable_one_sided, Hr.
  - intros st ctx now sg Hev Hl.
    assert (Ha : action sg = ENTER_YES \/ action sg = ENTER_NO).
    { unfold V2.is_level_entry in Hl; destruct (action sg); auto; discriminate. }
    destruct (evaluate_market_entry_guard _ _ _ _ Hev Ha) as [Hh|(_ & _ & Hop)];
      [|exact Hop].
    unfold V2.is_level_entry in Hl; rewrite Hh in Hl.
    destruct (action sg); discriminate.
Qed.

(** C2. Forced-unwind gate: below [force_unwind_time] (300 s) no LEVEL
    entry is emitted; when LEVEL positions exist the intent is a CRITICAL
    EXIT of the side with the larger aggregate LEVEL size (YES on a tie),
    placed as a marketable BUY of the opposite token, with the held token
    and its current price as SELL fallback. *)
Theorem forced_unwind_gate st ctx now :
  V2.reachable st ->
  Qltb (V2.end_time ctx - now) V2.force_unwind_time = true ->
  (forall sg, V2.evaluate_market st ctx now = Some sg ->
              V2.is_level_entry sg = false) /\
  (V2.get_level_positions st <> [] ->
   let lp := V2.get_level_positions st in
   let s := if Qle_bool (V2.total_size (filter (V2.on_side NO) lp))
                        (V2.total_size (filter (V2.on_side YES) lp))
            then YES else NO in
   exists sg,
     V2.evaluate_market st ctx now = Some sg /\
     action sg = EXIT /\ urgency sg = CRITICAL /\
     md_side (metadata sg) = Some s /\
     md_is_high_price_scalp (metadata sg) = Some false /\
     token_id sg = V2.side_token ctx (V2.opposite s) /\
     price sg = V2.side_price ctx (V2.opposite s) /\
     size sg = V2.total_size (filter (V2.on_side s) lp) /\
     md_fallback_token (metadata sg) = Some (V2.side_token ctx s) /\
     md_fallback_sell_price (metadata sg) = Some (V2.side_price ctx s) /\
     V2.bot_orders sg = [mkOrder (token_id sg) BUY (price sg) (size sg) false]).
Proof.
  intros Hr Ht; split.
  - intros sg Hev.
    destruct (V2.is_level_entry sg) eqn:Hl; [|reflexivity].
    assert (Ha : action sg = ENTER_YES \/ action sg = ENTER_NO).
    { unfold V2.is_level_entry in Hl; destruct (action sg); auto; discriminate. }
    destruct (evaluate_market_entry _ _ _ _ Hev Ha) as [[_ E]|[Hf _]];
      [|congruence].
    apply check_high_scalp_entry_spec in E as [Hh _].
    unfold V2.is_level_entry in Hl; rewrite Hh in Hl.
    destruct (action sg); discriminate.
  - intros Hne lp s.
    pose proof (Forall_filter_sub _ (fun p => negb (V2.is_high_scalp p)) _
                  (reachable_sizes_pos _ Hr)) as Hpos.
    fold (V2.get_level_positions st) in Hpos; fold lp in Hpos, Hne.
    unfold V2.evaluate_market; rewrite Ht.
    unfold V2.check_force_unwind; fold lp.
    assert (Hlp : nonempty lp = true) by (destruct lp; [congruence|reflexivity]).
    rewrite Hlp; simpl negb; cbv iota.
    unfold s; clear s.
    pose proof (Forall_filter_sub _ (V2.on_side YES) _ Hpos) as HY.
    pose proof (Forall_filter_sub _ (V2.on_side NO) _ Hpos) as HN.
    destruct (filter (V2.on_side YES) lp) as [|y ys] eqn:EY;
    destruct (filter (V2.on_side NO) lp) as [|n ns] eqn:EN.
    + exfalso; apply Hne, filter_sides_nil; assumption.
    + assert (Hlt := total_size_pos _ _ HN).
      replace (Qle_bool (V2.total_size (n :: ns)) (V2.total_size []))
        with false.
      2:{ symmetry; apply not_true_iff_false; intros Hle;
          apply Qle_bool_iff in Hle; unfold V2.total_size at 2 in Hle;
          simpl in Hle; apply (Qlt_not_le _ _ Hlt Hle). }
      simpl; eexists; repeat split; rewrite ?EY, ?EN; reflexivity.
    + replace (Qle_bool (V2.total_size []) (V2.total_size (y :: ys)))
        with true.
      2:{ symmetry; apply Qle_bool_iff; apply (total_size_nonneg _ HY). }
      simpl; eexists; repeat split; rewrite ?EY, ?EN; reflexivity.
    + simpl.
      destruct (Qle_bool (V2.pos_size n + _) _);
        simpl; eexists; repeat split; rewrite ?EY, ?EN; reflexivity.
Qed.

(** Witness for C1: one LEVEL YES entry filled on a fresh market. *)
Lemma no_hedged_level_book_witness :
  let st := V2.bot_tick V2.empty_state (V2.mkCtx 1000 0.30 0.70 "y" "n") 280 true in
  V2.reachable st /\ (List.length (V2.level_sides st) <= 1)%nat.
Proof.
  intros st.
  assert (Hr : V2.reachable st) by (apply V2.reach_tick, V2.reach_init).
  split; [exact Hr|].
  apply (proj1 no_hedged_level_book); exact Hr.
Defined.

(** Witness for C2: that book, 290 s before the end. *)
Lemma forced_unwind_gate_witness :
  let st := V2.bot_tick V2.empty_state (V2.mkCtx 1000 0.30 0.70 "y" "n") 280 true in
  let ctx := V2.mkCtx 1000 0.30 0.62 "y" "n" in
  V2.reachable st /\ Qltb (V2.end_time ctx - 710) V2.force_unwind_time = true /\
  V2.get_level_positions st <> [] /\
  exists sg, V2.evaluate_market st ctx 710 = Some sg /\ action sg = EXIT /\
             urgency sg = CRITICAL /\ md_side (metadata sg) = Some YES.
Proof.
  intros st ctx.
  assert (Hr : V2.reachable st) by (apply V2.reach_tick, V2.reach_init).
  assert (Ht : Qltb (V2.end_time ctx - 710) V2.force_unwind_time = true)
    by reflexivity.
  assert (Hne : V2.get_level_positions st <> []) by discriminate.
  split; [exact Hr|]; split; [exact Ht|]; split; [exact Hne|].
  destruct (proj2 (forced_unwind_gate st ctx 710 Hr Ht) Hne)
    as (sg & Hev & Ha & Hu & Hs & _).
  exists sg; split; [exact Hev|]; split; [exact Ha|]; split; [exact Hu|].
  rewrite Hs; reflexivity.
Defined.

(** C3. The completed-cycles counter and [on_exit_filled]: the ack
    removes every position of the side; the counter rises by exactly one
    when, and only when, the ack is classified LEVEL ([is_high_scalp] is
    false) and some position of that side (LEVEL or HIGH_SCALP) was
    removed; a HIGH_SCALP ack never changes it. *)
Theorem exit_fill_cycles st s b :
  let st' := V2.on_exit_filled st s b in
  ((V2.completed_cycles st' = S (V2.completed_cycles st) <->
      b = false /\ filter (V2.on_side s) (V2.positions st) <> []) /\
   (V2.completed_cycles st' = V2.completed_cycles st <->
      b = true \/ filter (V2.on_side s) (V2.positions st) = [])) /\
  filter (V2.on_side s) (V2.positions st') = [].
Proof.
  intros st'; unfold st', V2.on_exit_filled.
  assert (Hk : filter (V2.on_side s)
                 (filter (fun p => negb (V2.on_side s p)) (V2.positions st)) = []).
  { induction (V2.positions st) as [|p r IH]; simpl; [reflexivity|].
    destruct (V2.on_side s p) eqn:E; simpl; [exact IH|rewrite E; exact IH]. }
  destruct b, (filter (V2.on_side s) (V2.positions st)) eqn:Ef; simpl;
    (split; [|exact Hk]);
    (split; split; [intros Hc| |intros Hc|]);
    try solve [lia | tauto | discriminate | reflexivity | congruence].
  - split; [reflexivity|discriminate].
  - intros [H|H]; [discriminate|congruence].
Qed.

(** Witness for C3: a LEVEL ack that removes a YES position counts a
    cycle. *)
Lemma exit_fill_cycles_witness :
  let st := V2.mkState [V2.mkPos YES 0.30 10 0 false 0.05] 0 in
  V2.completed_cycles (V2.on_exit_filled st YES false) = 1%nat /\
  filter (V2.on_side YES) (V2.positions (V2.on_exit_filled st YES false)) = [].
Proof.
  intros st.
  destruct (exit_fill_cycles st YES false) as [[[_ H1] _] H2].
  split; [apply H1; split; [reflexivity|discriminate]|exact H2].
Defined.

(** C3, as stated, fails: a fresh market that bought one HIGH_SCALP YES
    position (no LEVEL position at all) counts a completed cycle when an
    exit-fill ack for YES classified LEVEL arrives. *)
Lemma exit_fill_cycles_counterexample :
  ~ (forall st s b,
       V2.completed_cycles (V2.on_exit_filled st s b) <> V2.completed_cycles st ->
       b = false /\ filter (V2.on_side s) (V2.get_level_positions st) <> []).
Proof.
  intros Hall.
  pose (st := V2.bot_tick V2.empty_state (V2.mkCtx 1000 0.90 0.10 "y" "n") 800 true).
  destruct (Hall st YES false) as [_ H].
  - vm_compute; discriminate.
  - apply H; vm_compute; reflexivity.
Qed.

(** C4. The PLACE_TP_LIMIT intent: it is emitted for the LEVEL positions
    [ps] of one side, for their whole size, as a BUY of the opposite token
    at that token's current ask; the ask is at or below the target exit
    [1 - (1 + level_profit_target) * avg_entry ps], which is only the
    trigger, not the price. *)
Theorem tp_limit_price st ctx now sg :
  V2.evaluate_market st ctx now = Some sg ->
  action sg = PLACE_TP_LIMIT ->
  exists s,
    let ps := filter (V2.on_side s) (V2.get_level_positions st) in
    ps <> [] /\ md_side (metadata sg) = Some s /\
    token_id sg = V2.side_token ctx (V2.opposite s) /\
    price sg = V2.side_price ctx (V2.opposite s) /\
    size sg = V2.total_size ps /\
    price sg <= 1 - (1 + V2.level_profit_target) * V2.avg_entry ps.
Proof.
  intros H Ha; apply check_level_exit_spec, (evaluate_market_tp _ _ _ _ H Ha).
Qed.

(** Witness for C4: a LEVEL YES book bought at 0.30, NO ask at 0.62. *)
Lemma tp_limit_price_witness :
  let st := V2.bot_tick V2.empty_state (V2.mkCtx 1000 0.30 0.70 "y" "n") 280 true in
  let ctx := V2.mkCtx 1000 0.30 0.62 "y" "n" in
  exists sg, V2.evaluate_market st ctx 281 = Some sg /\
    action sg = PLACE_TP_LIMIT /\
    md_side (metadata sg) = Some YES /\ price sg = 0.62.
Proof.
  intros st ctx.
  destruct (V2.evaluate_market st ctx 281) as [sg|] eqn:E;
    [|vm_compute in E; discriminate E].
  assert (Ha : action sg = PLACE_TP_LIMIT)
    by (vm_compute in E; injection E as <-; reflexivity).
  destruct (tp_limit_price _ _ _ _ E Ha) as (s & _ & Hs & _ & Hp & _).
  assert (Hs' : s = YES).
  { vm_compute in E; injection E as <-; simpl in Hs; injection Hs as <-;
    reflexivity. }
  subst s; exists sg; repeat split; [exact Ha|exact Hs|exact Hp].
Defined.

(** C4, as stated, fails: on that book the TP price is the NO ask 0.62,
    not [max(0.01, 1 - 1.05 * 0.30)] = 0.685. *)
Lemma tp_limit_price_counterexample :
  ~ (forall st ctx now sg s,
       V2.evaluate_market st ctx now = Some sg ->
       action sg = PLACE_TP_LIMIT -> md_side (metadata sg) = Some s ->
       price sg == Qmax 0.01 (1 - (1 + V2.level_profit_target) *
                    V2.avg_entry (filter (V2.on_side s) (V2.get_level_positions st)))).
Proof.
  intros Hall.
  pose (st := V2.bot_tick V2.empty_state (V2.mkCtx 1000 0.30 0.70 "y" "n") 280 true).
  pose (ctx := V2.mkCtx 1000 0.30 0.62 "y" "n").
  destruct (V2.evaluate_market st ctx 281) as [sg|] eqn:E;
    [|vm_compute in E; discriminate E].
  pose proof (Hall st ctx 281 sg YES E) as H.
  vm_compute in E; injection E as <-.
  specialize (H eq_refl eq_refl).
  apply Qeq_bool_iff in H; vm_compute in H; discriminate H.
Qed.

(** C6. LEVEL entry selection: a LEVEL entry for side [s] is at the level
    [l] that comes first in [entry_levels] = [0.34; 0.24; 0.14] (highest
    first) among the levels above the side's ask with no LEVEL position (of
    either side) entered within 0.01 of it; its price is the side's ask,
    not [l]; it needs the opposite side flat, 420 s left and fewer than
    [max_completed_cycles] cycles. *)
Theorem level_entry_selection st ctx now sg :
  V2.evaluate_market st ctx now = Some sg ->
  V2.is_level_entry sg = true ->
  exists s l,
    action sg = (match s with YES => ENTER_YES | NO => ENTER_NO end) /\
    md_level (metadata sg) = Some l /\
    first_such (fun l' => Qltb (V2.side_price ctx s) l'
                          && negb (V2.has_position_at_level st l'))
      V2.entry_levels = Some l /\
    V2.side_price ctx s < l /\
    (forall p, In p (V2.get_level_positions st) ->
               ~ Qabs (V2.entry_price p - l) < 0.01) /\
    price sg = V2.side_price ctx s /\
    token_id sg = V2.side_token ctx s /\
    size sg = V2.level_size /\
    filter (V2.on_side (V2.opposite s)) (V2.get_level_positions st) = [] /\
    V2.min_time_for_level_entry <= V2.end_time ctx - now /\
    (V2.completed_cycles st < V2.max_completed_cycles)%nat.
Proof.
  intros H Hl.
  apply evaluate_market_level_entry in H; [|exact Hl].
  pose proof (check_level_entry_spec _ _ _ _ H)
    as (s' & l' & _ & Ht & Hc & Hop & _ & _ & E').
  apply check_level_entry_first in H as (s & l & E & Hf).
  assert (Hl' : l' = l).
  { pose proof (f_equal (fun x => md_level (metadata x)) E') as Hm.
    rewrite E in Hm; simpl in Hm; injection Hm as ->; reflexivity. }
  assert (Hs' : s' = s).
  { pose proof (f_equal action E') as Hm.
    rewrite E in Hm; destruct s, s'; simpl in Hm; congruence. }
  subst l' s' sg.
  pose proof (first_such_some _ _ _ Hf) as [_ Hf'].
  apply andb_prop in Hf' as [Hlt Hpos]; apply negb_true_iff in Hpos.
  apply Qle_bool_iff in Ht.
  assert (Hlt' : V2.side_price ctx s < l).
  { unfold Qltb in Hlt; apply negb_true_iff in Hlt.
    apply Qnot_le_lt; intros Hle; apply Qle_bool_iff in Hle; congruence. }
  pose proof (has_position_at_level_false _ _ Hpos) as Hnear.
  exists s, l.
  split; [destruct s; reflexivity|].
  split; [reflexivity|]. split; [exact Hf|]. split; [exact Hlt'|].
  split; [exact Hnear|]. split; [reflexivity|]. split; [reflexivity|].
  split; [reflexivity|]. split; [exact Hop|]. split; [exact Ht|exact Hc].
Qed.

(** Witness for C6: a fresh market, YES ask 0.30, 720 s left. *)
Lemma level_entry_selection_witness :
  let ctx := V2.mkCtx 1000 0.30 0.70 "y" "n" in
  exists sg, V2.evaluate_market V2.empty_state ctx 280 = Some sg /\
    V2.is_level_entry sg = true /\ md_level (metadata sg) = Some 0.34 /\
    price sg = 0.30.
Proof.
  intros ctx.
  destruct (V2.evaluate_market V2.empty_state ctx 280) as [sg|] eqn:E;
    [|vm_compute in E; discriminate E].
  assert (Hl : V2.is_level_entry sg = true)
    by (vm_compute in E; injection E as <-; reflexivity).
  destruct (level_entry_selection _ _ _ _ E Hl)
    as (s & l & _ & Hm & _ & _ & _ & Hp & _).
  assert (Hsl : s = YES /\ l = 0.34).
  { vm_compute in E; injection E as <-; simpl in Hm; injection Hm as <-.
    destruct s; simpl in Hp; [split; reflexivity|discriminate Hp]. }
  destruct Hsl as [-> ->].
  exists sg; repeat split; [exact Hl|exact Hm|exact Hp].
Defined.

(** C6, as stated, fails: with the YES ask at 0.10 all three levels
    trigger and none is entered, yet the intent is for level 0.34, the
    highest, and its price is the ask 0.10, not the level. *)
Lemma level_entry_selection_counterexample :
  exists sg,
    V2.evaluate_market V2.empty_state (V2.mkCtx 1000 0.10 0.90 "y" "n") 280 = Some sg /\
    V2.is_level_entry sg = true /\
    md_level (metadata sg) = Some 0.34 /\
    ~ (price sg == 0.34) /\
    In 0.14 V2.entry_levels /\ Qltb 0.10 0.14 = true /\
    V2.has_position_at_level V2.empty_state 0.14 = false.
Proof.
  destruct (V2.evaluate_market V2.empty_state (V2.mkCtx 1000 0.10 0.90 "y" "n") 280)
    as [sg|] eqn:E; [|vm_compute in E; discriminate E].
  vm_compute in E; injection E as <-.
  exists (mkSignal ENTER_YES "y" 0.10 V2.level_size MEDIUM
            (V2.entry_metadata YES 0.34 false V2.level_profit_target)).
  repeat split.
  - intros Heq; apply Qeq_bool_iff in Heq; vm_compute in Heq; discriminate Heq.
  - simpl; auto.
Qed.

(** ** Claim on the v1 strategy *)

(** C8. Entry debounce in [multi_level_scalping_strategy.py]: an entry
    records [(side, level)] in [last_entry_time] when it is emitted, and
    neither [on_order_filled] nor [on_exit_filled] ever clears it.  On a
    concrete run (YES ask 0.33, 720 s left: entry at level 0.34, filled,
    then exited) the side is flat, no exit order is active and the trade
    budget is not used up, yet the same ask no longer yields an entry,
    while a market with the same trade count and no record does enter. *)
Theorem entry_debounce_not_cleared :
  (forall st s b,
     V1.last_entry_time (V1.on_exit_filled st s b) = V1.last_entry_time st) /\
  (forall st s pr sz lv md now,
     V1.last_entry_time (V1.on_order_filled st s pr sz lv md now)
     = V1.last_entry_time st) /\
  (let ctx := V2.mkCtx 1000 0.33 0.70 "y" "n" in
   let r1 := V1.check_entry V1.empty_state ctx 280 in
   let sg1 := V1.entry_signal YES ctx (0%nat, 0.34) in
   let st3 := V1.on_exit_filled
                (V1.on_order_filled (snd r1) YES (price sg1) (size sg1) 0.34
                   (metadata sg1) 281) YES false in
   fst r1 = Some sg1 /\
   V1.lookup (YES, 0.34) (V1.last_entry_time (snd r1)) = Some 280 /\
   V1.positions st3 = [] /\ V1.active_exit_orders st3 = [] /\
   (V1.trade_count st3 < V1.max_trades_per_market)%nat /\
   fst (V1.check_entry st3 ctx 300) = None /\
   fst (V1.check_entry (V1.mkState [] [] (V1.trade_count st3) 0 [] None None)
          ctx 300) = Some sg1).
Proof.
  split; [intros; reflexivity|].
  split; [intros; reflexivity|].
  vm_compute.
  split; [reflexivity|]. split; [reflexivity|]. split; [reflexivity|].
  split; [reflexivity|]. split; [lia|]. split; reflexivity.
Qed.

(** ** Claims on the web server's exit coordinator *)

(** C5. TP limit orders on the web server are placed once, never
    repriced: while the market has an active exit order (a placed TP order
    or a failure marker) a PLACE_TP_LIMIT intent neither cancels nor
    places anything and leaves the state as it is; with none active and
    trading enabled, a BUY TP intent is placed as one post-only BUY at the
    intent's price when the balance covers [size * price], and otherwise
    only the balance is read and an ["insufficient-balance"] marker is
    recorded. *)
Theorem tp_place_once :
  forall enabled st sg bal resp,
    (Web.active st <> [] ->
     Web.tp_handler enabled st sg bal resp = ([], st)) /\
    (enabled = true -> Web.active st = [] ->
     md_order_type (metadata sg) <> Some "SELL"%string ->
     Web.placed (fst (Web.tp_handler enabled st sg bal resp)) =
       (if Qltb bal (size sg * price sg) then []
        else [mkOrder (token_id sg) BUY (price sg) (size sg) true]) /\
     (forall oid, ~ In (Web.CancelOrder oid)
                      (fst (Web.tp_handler enabled st sg bal resp))) /\
     (Qltb bal (size sg * price sg) = true ->
      Web.tp_handler enabled st sg bal resp =
        ([Web.QueryBalance], Web.set_active st ["insufficient-balance"%string]))).
Proof.
  intros enabled st sg bal resp; split.
  - intros Hne; unfold Web.tp_handler.
    destruct enabled; simpl negb; cbv iota; [|reflexivity].
    destruct (Web.active st) as [|a r]; [congruence|reflexivity].
  - intros -> Hnil Hsell; unfold Web.tp_handler; simpl negb; cbv iota.
    rewrite Hnil; simpl nonempty; cbv iota.
    assert (Hb : String.eqb (get_or "BUY"%string (md_order_type (metadata sg)))
                   "SELL"%string = false).
    { destruct (md_order_type (metadata sg)) as [t|]; [|reflexivity]; simpl.
      apply String.eqb_neq; congruence. }
    rewrite Hb.
    destruct (Qltb bal (size sg * price sg)).
    + split; [reflexivity|split; [|reflexivity]].
      simpl; intros oid [H|H]; [discriminate H|exact H].
    + destruct resp; simpl; (split; [reflexivity|split; [|discriminate]]);
        intros oid [H|[H|H]]; try discriminate H; exact H.
Qed.

(** Witness for C5: an active TP order and a lower TP price; then a flat
    book of exit orders, with enough balance and with too little. *)
Lemma tp_place_once_witness :
  let st0 := Web.mkWeb (V1.mkState [] [] 0 0 ["tp-1"%string] (Some 0.62) None)
               10 0.30 0 0 0 0 0 in
  let st1 := Web.set_active st0 [] in
  let sg := mkSignal PLACE_TP_LIMIT "n" 0.50 10 HIGH empty_metadata in
  Web.tp_handler true st0 sg 100 (Web.Resp None) = ([], st0) /\
  Web.placed (fst (Web.tp_handler true st1 sg 100 (Web.Resp None))) =
    [mkOrder "n" BUY 0.50 10 true] /\
  Web.tp_handler true st1 sg 1 (Web.Resp None) =
    ([Web.QueryBalance], Web.set_active st1 ["insufficient-balance"%string]).
Proof.
  intros st0 st1 sg.
  split; [|split].
  - apply (proj1 (tp_place_once true st0 sg 100 (Web.Resp None))); discriminate.
  - destruct (proj2 (tp_place_once true st1 sg 100 (Web.Resp None)) eq_refl eq_refl)
      as [H _]; [discriminate|].
    rewrite H; reflexivity.
  - destruct (proj2 (tp_place_once true st1 sg 1 (Web.Resp None)) eq_refl eq_refl)
      as (_ & _ & H); [discriminate|].
    apply H; reflexivity.
Defined.

(** C5, as stated, fails: the market has an active TP order placed at
    0.62 and the new target 0.50 is strictly lower, yet the handler
    cancels nothing and places nothing. *)
Lemma tp_place_once_counterexample :
  let st0 := Web.mkWeb (V1.mkState [] [] 0 0 ["tp-1"%string] (Some 0.62) None)
               10 0.30 0 0 0 0 0 in
  let sg := mkSignal PLACE_TP_LIMIT "n" 0.50 10 HIGH empty_metadata in
  V1.last_tp_limit_price (Web.strat st0) = Some 0.62 /\ price sg < 0.62 /\
  ~ In (Web.CancelOrder "tp-1") (fst (Web.tp_handler true st0 sg 100 (Web.Resp None))) /\
  Web.placed (fst (Web.tp_handler true st0 sg 100 (Web.Resp None))) = [].
Proof.
  intros st0 sg; vm_compute.
  split; [reflexivity|]. split; [reflexivity|]. split; [tauto|reflexivity].
Qed.

(** C7. EXIT on the web server with trading enabled and the fallback
    [fallback_token] / [fallback_sell_price] of the intent set and truthy:
    the active exit orders are cancelled, the balance is read, and then a
    SELL of the fallback token at the fallback price is placed when the
    balance is below [size * price]; otherwise the unwind BUY is placed,
    followed by that SELL only if the BUY fails. *)
Theorem exit_unwind_or_sell st sg bal venue t fp :
  action sg = EXIT ->
  md_fallback_token (metadata sg) = Some t -> t <> EmptyString ->
  md_fallback_sell_price (metadata sg) = Some fp -> ~ fp == 0 ->
  let buy := mkOrder (token_id sg) BUY (price sg) (size sg) false in
  let sell := mkOrder t SELL fp (size sg) false in
  exists rest,
    fst (Web.exit_handler true st sg bal venue) =
      map Web.CancelOrder (Web.active st) ++ Web.QueryBalance :: rest /\
    Web.placed rest =
      (if Qltb bal (size sg * price sg) then [sell]
       else if venue buy then [buy] else [buy; sell]).
Proof.
  intros Ha Ht Htne Hf Hfne; cbv zeta.
  assert (Htt : Web.str_truthy (Some t) = true).
  { simpl; apply negb_true_iff, String.eqb_neq; exact Htne. }
  assert (Hft : Web.q_truthy (Some fp) = true).
  { simpl; apply negb_true_iff; destruct (Qeq_bool fp 0) eqn:E; [|reflexivity].
    apply Qeq_bool_iff in E; contradiction. }
  unfold Web.exit_handler; simpl negb; cbv iota.
  rewrite Ha.
  destruct (Qltb bal (size sg * price sg)).
  - rewrite Ht, Hf; simpl.
    destruct (venue (mkOrder t SELL fp (size sg) false)); simpl;
      eexists; (split; [rewrite <- !app_assoc; reflexivity|]); reflexivity.
  - simpl.
    destruct (venue (mkOrder (token_id sg) BUY (price sg) (size sg) false)); simpl.
    + eexists; (split; [rewrite <- !app_assoc; reflexivity|]); reflexivity.
    + rewrite Ht, Hf, Htt, Hft; simpl.
      destruct (venue (mkOrder t SELL fp (size sg) false)); simpl;
        eexists; (split; [rewrite <- !app_assoc; reflexivity|]); reflexivity.
Qed.

(** Witness for C7: a force-unwind style EXIT of a YES book with 1 USDC
    of balance, against 6.2 needed. *)
Lemma exit_unwind_or_sell_witness :
  let md := {| md_side := Some YES; md_level := None;
               md_is_high_price_scalp := None; md_profit_target := None;
               md_fallback_sell_price := Some 0.30;
               md_fallback_token := Some "y"%string;
               md_order_type := None; md_token_yes := None;
               md_token_no := None |} in
  let sg := mkSignal EXIT "n" 0.62 10 CRITICAL md in
  let st := Web.mkWeb (V1.mkState [] [] 0 0 ["tp-1"%string] None None)
              10 0.30 0 0 0 0 0 in
  exists rest,
    fst (Web.exit_handler true st sg 1 (fun _ => true)) =
      [Web.CancelOrder "tp-1"; Web.QueryBalance] ++ rest /\
    Web.placed rest = [mkOrder "y" SELL 0.30 10 false].
Proof.
  intros md sg st.
  destruct (exit_unwind_or_sell st sg 1 (fun _ => true) "y" 0.30
              eq_refl eq_refl ltac:(discriminate) eq_refl
              ltac:(intros H; apply Qeq_bool_iff in H; discriminate H))
    as (rest & Hfst & Hp).
  exists rest; split; [exact Hfst|exact Hp].
Defined.

(** C7, as stated, fails: with [config.trading_enabled] off (the dry-run
    mode) an EXIT intent reads no balance and places no order. *)
Lemma exit_unwind_or_sell_counterexample :
  ~ (forall enabled st sg bal venue,
       action sg = EXIT ->
       In Web.QueryBalance (fst (Web.exit_handler enabled st sg bal venue))).
Proof.
  intros Hall.
  apply (Hall false (Web.mkWeb V1.empty_state 10 0.30 0 0 0 0 0)
            (mkSignal EXIT "n" 0.62 10 CRITICAL empty_metadata) 100
            (fun _ => true) eq_refl).
Qed.

(** ** Claim on failed exits (web server and bot v2) *)

(** C10. A failed exit changes no ledger.  On the web server, when every
    order the EXIT handler places fails (the unwind BUY, the SELL it may
    turn into, and the SELL fallback), the strategy's positions, entry
    record and trade count, the context positions and the bot's trade
    statistics are those of before ([on_exit_filled] is not called); only
    the active exit orders are cancelled and forgotten, and the last
    effect is a failed trade event.  In bot v2 a failed placement leaves
    the market state as it is, so the next evaluation sees the same book. *)
Theorem exit_failure_atomic :
  (forall st sg bal venue,
     action sg = EXIT \/ action sg = EXIT_SELL ->
     (forall o, venue o = false) ->
     snd (Web.exit_handler true st sg bal venue) = Web.set_active st [] /\
     last (fst (Web.exit_handler true st sg bal venue)) Web.QueryBalance
       = Web.TradeEvent false) /\
  (forall st sg now ctx now',
     V2.bot_execute st sg false now = st /\
     V2.evaluate_market (V2.bot_execute st sg false now) ctx now'
       = V2.evaluate_market st ctx now').
Proof.
  split.
  - intros st sg bal venue Ha Hv.
    unfold Web.exit_handler; simpl negb; cbv iota.
    destruct Ha as [Ha|Ha]; rewrite Ha.
    + destruct (Qltb bal (size sg * price sg)); simpl; rewrite ?Hv; simpl.
      * split; [reflexivity|apply last_last].
      * destruct (Web.str_truthy _ && Web.q_truthy _); simpl;
          [rewrite ?Hv; simpl|]; (split; [reflexivity|apply last_last]).
    + simpl; rewrite Hv; simpl; split; [reflexivity|apply last_last].
  - intros st sg now ctx now'.
    assert (H : V2.bot_execute st sg false now = st)
      by (unfold V2.bot_execute; destruct (action sg); reflexivity).
    rewrite H; split; reflexivity.
Qed.

(** Witness for C10: a YES book, the unwind BUY and its SELL fallback
    both rejected. *)
Lemma exit_failure_atomic_witness :
  let md := {| md_side := Some YES; md_level := None;
               md_is_high_price_scalp := None; md_profit_target := None;
               md_fallback_sell_price := Some 0.30;
               md_fallback_token := Some "y"%string;
               md_order_type := None; md_token_yes := None;
               md_token_no := None |} in
  let sg := mkSignal EXIT "n" 0.62 10 CRITICAL md in
  let st := Web.mkWeb
              (V1.mkState [V1.mkPos 0.34 YES 0.30 10 0 false 0.05] [] 0 0
                 ["tp-1"%string] None None)
              10 0.30 0 0 0 0 0 in
  V1.positions (Web.strat (snd (Web.exit_handler true st sg 100 (fun _ => false))))
    = V1.positions (Web.strat st) /\
  Web.total_trades (snd (Web.exit_handler true st sg 100 (fun _ => false))) = 0%nat.
Proof.
  intros md sg st.
  destruct (proj1 exit_failure_atomic st sg 100 (fun _ => false)
              (or_introl eq_refl) (fun _ => eq_refl)) as [H _].
  rewrite H; split; reflexivity.
Defined.

(** ** Claim on the order-book mirror *)

Lemma book_lookup_remove p m : Book.lookup p (Book.remove p m) = None.
Proof.
  induction m as [|[k v] r IH]; simpl; [reflexivity|].
  destruct (Qeq_bool p k) eqn:E; simpl; [exact IH|rewrite E; exact IH].
Qed.

Lemma book_remove_absent p m : Book.lookup p m = None -> Book.remove p m = m.
Proof.
  induction m as [|[k v] r IH]; simpl; [reflexivity|].
  destruct (Qeq_bool p k) eqn:E; [discriminate|]; simpl.
  intros H; f_equal; exact (IH H).
Qed.

Lemma book_lookup_set p s m : Book.lookup p (Book.set p s m) = Some s.
Proof.
  induction m as [|[k v] r IH]; simpl.
  - rewrite Qeq_bool_refl; reflexivity.
  - destruct (Qeq_bool p k) eqn:E; simpl; rewrite E; [reflexivity|exact IH].
Qed.

(** C9. Level updates of an order book side: a size-0 update removes the
    price level (the dict no longer has the price), a size-0 update for an
    absent price leaves the dict as it is, a non-zero update sets the
    level's size, an update whose price or size does not parse is
    skipped, and an update of one side never touches the other side. *)
Theorem book_level_updates (m : Book.Dict) p s :
  Book.lookup p (Book.update_side m [Some (p, 0)]) = None /\
  (Book.lookup p m = None -> Book.update_side m [Some (p, 0)] = m) /\
  (~ s == 0 -> Book.lookup p (Book.update_side m [Some (p, s)]) = Some s) /\
  Book.update_side m [None] = m /\
  (forall ob us, Book.bids (Book.update ob [] us) = Book.bids ob /\
                 Book.asks (Book.update ob us []) = Book.asks ob).
Proof.
  unfold Book.update_side; simpl; unfold Book.mem.
  split; [|split; [|split; [|split]]].
  - destruct (Book.lookup p m) eqn:E; [apply book_lookup_remove|exact E].
  - intros H; rewrite H; reflexivity.
  - intros Hs.
    destruct (Qeq_bool s 0) eqn:E;
      [apply Qeq_bool_iff in E; contradiction|apply book_lookup_set].
  - reflexivity.
  - intros ob us; split; reflexivity.
Qed.

(** Witness for C9: a size-0 update of an absent price, and a non-zero
    update. *)
Lemma book_level_updates_witness :
  Book.update_side [(0.4, 5)] [Some (0.5, 0)] = [(0.4, 5)] /\
  Book.lookup 0.5 (Book.update_side [(0.4, 5)] [Some (0.5, 7)]) = Some 7.
Proof.
  destruct (book_level_updates [(0.4, 5)] 0.5 7) as (_ & H0 & H1 & _).
  split; [apply H0; reflexivity|].
  apply H1; intros H; apply Qeq_bool_iff in H; discriminate H.
Defined.

(** C9, as stated, fails: a BUY change and then a SELL change at the same
    price leave that price on both sides of the book; nothing removes a
    price from one side when the other side gets it. *)
Lemma book_level_updates_counterexample :
  let ob := Book.apply_change
              (Book.apply_change (Book.mkBook [] [])
                 (Book.mkChange "BUY" (Some 0.5) (Some 10)))
              (Book.mkChange "SELL" (Some 0.5) (Some 10)) in
  Book.lookup 0.5 (Book.bids ob) = Some 10 /\
  Book.lookup 0.5 (Book.asks ob) = Some 10.
Proof. vm_compute; split; reflexivity. Qed.

(** * Further properties of the code *)

Module V2More.
Import V2.

Lemma check_high_scalp_entry_full st ctx now sg :
  check_high_scalp_entry st ctx now = Some sg ->
  Qltb (end_time ctx - now) force_unwind_time = true /\
  get_high_scalp_positions st = [] /\
  exists s, Qle_bool high_scalp_threshold (side_price ctx s) = true /\
    sg = mkSignal (match s with YES => ENTER_YES | NO => ENTER_NO end)
           (side_token ctx s) (side_price ctx s) high_scalp_size HIGH
           (entry_metadata s (side_price ctx s) true high_scalp_profit_target).
Proof.
  unfold check_high_scalp_entry; intros H.
  destruct (Qle_bool force_unwind_time (end_time ctx - now)) eqn:Et; [discriminate|].
  destruct (Nat.leb _ _); [discriminate|].
  destruct (get_high_scalp_positions st) eqn:Eh; [|discriminate]; simpl in H.
  split; [unfold Qltb; rewrite Et; reflexivity|split; [reflexivity|]].
  destruct (Qle_bool high_scalp_threshold (yes_price ctx)) eqn:Ey.
  - injection H as <-; exists YES; auto.
  - destruct (Qle_bool high_scalp_threshold (no_price ctx)) eqn:En; [|discriminate].
    injection H as <-; exists NO; auto.
Qed.

Lemma check_force_unwind_level st ctx sg :
  check_force_unwind st ctx = Some sg ->
  md_is_high_price_scalp (metadata sg) = Some false /\
  exists s, md_side (metadata sg) = Some s /\
    filter (on_side s) (get_level_positions st) <> [].
Proof.
  unfold check_force_unwind; intros H.
  destruct (nonempty (get_level_positions st)); [|discriminate]; simpl in H.
  destruct (filter (on_side YES) (get_level_positions st)) as [|y ys] eqn:EY.
  - destruct (filter (on_side NO) (get_level_positions st)) as [|n ns] eqn:EN;
      simpl in H; [discriminate|].
    injection H as <-; split; [reflexivity|]; exists NO; split; [reflexivity|].
    rewrite EN; discriminate.
  - simpl in H. destruct (_ || _).
    + injection H as <-; split; [reflexivity|]; exists YES; split; [reflexivity|].
      rewrite EY; discriminate.
    + destruct (filter (on_side NO) (get_level_positions st)) as [|n ns] eqn:EN;
        simpl in H; [discriminate|].
      injection H as <-; split; [reflexivity|]; exists NO; split; [reflexivity|].
      rewrite EN; discriminate.
Qed.

Lemma check_high_scalp_exit_hs st ctx sg :
  check_high_scalp_exit st ctx = Some sg ->
  md_is_high_price_scalp (metadata sg) = Some true.
Proof. unfold check_high_scalp_exit; intros H; split_opt; reflexivity. Qed.

(** A LEVEL-classified exit is only emitted for a side holding LEVEL
    positions. *)
Lemma evaluate_market_exit_level st ctx now sg :
  evaluate_market st ctx now = Some sg ->
  action sg = EXIT \/ action sg = PLACE_TP_LIMIT ->
  get_or false (md_is_high_price_scalp (metadata sg)) = false ->
  filter (on_side (get_or YES (md_side (metadata sg)))) (get_level_positions st) <> [].
Proof.
  unfold evaluate_market; intros H Ha Hh.
  destruct (Qltb _ _).
  - destruct (check_force_unwind st ctx) as [x|] eqn:E1.
    { injection H as <-. apply check_force_unwind_level in E1 as [_ [s [Hs Hne]]].
      rewrite Hs; exact Hne. }
    destruct (check_high_scalp_exit st ctx) as [x|] eqn:E2.
    { injection H as <-. apply check_high_scalp_exit_hs in E2.
      rewrite E2 in Hh; discriminate. }
    apply check_high_scalp_entry_spec in H as (_ & _ & [E|E]);
      rewrite E in Ha; destruct Ha; discriminate.
  - destruct (check_level_exit st ctx) as [x|] eqn:E1.
    + injection H as <-. apply check_level_exit_spec in E1 as [s0 (Hne & Hs & _)].
      rewrite Hs; exact Hne.
    + apply check_level_entry_spec in H as (s & l & _ & _ & _ & _ & _ & _ & ->).
      destruct s; destruct Ha; discriminate.
Qed.

(** Every tick leaves the book as it is, applies an exit fill (a LEVEL
    one only for a side holding LEVEL positions), or adds one LEVEL or one
    HIGH_SCALP position under the guards of its entry check. *)
Lemma bot_tick_step st ctx now ok :
  let st' := bot_tick st ctx now ok in
  st' = st \/
  (exists s b, st' = on_exit_filled st s b /\
     (b = false -> filter (on_side s) (get_level_positions st) <> [])) \/
  (exists s l, st' = on_order_filled st s (side_price ctx s) level_size
                        (entry_metadata s l false level_profit_target) now /\
     In l entry_levels /\ Qltb (side_price ctx s) l = true /\
     (completed_cycles st < max_completed_cycles)%nat /\
     filter (on_side (opposite s)) (get_level_positions st) = [] /\
     has_position_at_level st l = false /\
     Qle_bool min_time_for_level_entry (end_time ctx - now) = true) \/
  (exists s, st' = on_order_filled st s (side_price ctx s) high_scalp_size
                     (entry_metadata s (side_price ctx s) true high_scalp_profit_target) now /\
     Qltb (end_time ctx - now) force_unwind_time = true /\
     get_high_scalp_positions st = [] /\
     Qle_bool high_scalp_threshold (side_price ctx s) = true).
Proof.
  cbv zeta; unfold bot_tick.
  destruct (_ || _); [left; reflexivity|].
  destruct (evaluate_market st ctx now) as [sg|] eqn:Ev; [|left; reflexivity].
  unfold bot_execute.
  assert (Hent : action sg = ENTER_YES \/ action sg = ENTER_NO ->
     forall d, (if ok && metadata_truthy (metadata sg)
                then on_order_filled st (get_or d (md_side (metadata sg))) (price sg)
                       (size sg) (metadata sg) now
                else st) = st \/
     (exists s l, (if ok && metadata_truthy (metadata sg)
                then on_order_filled st (get_or d (md_side (metadata sg))) (price sg)
                       (size sg) (metadata sg) now
                else st) = on_order_filled st s (side_price ctx s) level_size
                        (entry_metadata s l false level_profit_target) now /\
     In l entry_levels /\ Qltb (side_price ctx s) l = true /\
     (completed_cycles st < max_completed_cycles)%nat /\
     filter (on_side (opposite s)) (get_level_positions st) = [] /\
     has_position_at_level st l = false /\
     Qle_bool min_time_for_level_entry (end_time ctx - now) = true) \/
     (exists s, (if ok && metadata_truthy (metadata sg)
                then on_order_filled st (get_or d (md_side (metadata sg))) (price sg)
                       (size sg) (metadata sg) now
                else st) = on_order_filled st s (side_price ctx s) high_scalp_size
                     (entry_metadata s (side_price ctx s) true high_scalp_profit_target) now /\
     Qltb (end_time ctx - now) force_unwind_time = true /\
     get_high_scalp_positions st = [] /\
     Qle_bool high_scalp_threshold (side_price ctx s) = true)).
  { intros Ha d.
    destruct (ok && metadata_truthy (metadata sg)); [|left; reflexivity].
    right.
    destruct (evaluate_market_entry _ _ _ _ Ev Ha) as [[_ E]|[_ E]].
    - right. apply check_high_scalp_entry_full in E as (Ht & Hh & s & Hs & ->).
      exists s; auto.
    - left. apply check_level_entry_spec in E
        as (s & l & Hin & Ht & Hc & Hop & Hpos & Hlt & ->).
      exists s, l; auto 10. }
  destruct (action sg) eqn:Ea.
  - destruct (Hent (or_introl eq_refl) YES) as [H|[H|H]]; auto.
  - destruct (Hent (or_intror eq_refl) NO) as [H|[H|H]]; auto.
  - destruct (ok && metadata_truthy (metadata sg)); [|left; reflexivity].
    right; left. eexists _, _; split; [reflexivity|].
    intros Hb; apply (evaluate_market_exit_level _ _ _ _ Ev); auto.
  - left; reflexivity.
  - destruct (ok && metadata_truthy (metadata sg)); [|left; reflexivity].
    right; left. eexists _, _; split; [reflexivity|].
    intros Hb; apply (evaluate_market_exit_level _ _ _ _ Ev); auto.
Qed.


Lemma positions_exit_filled st s b :
  positions (on_exit_filled st s b) = filter (fun p => negb (on_side s p)) (positions st).
Proof. unfold on_exit_filled; destruct (_ && _); reflexivity. Qed.

Lemma cycles_exit_filled st s b :
  completed_cycles (on_exit_filled st s b) =
  if negb b && nonempty (filter (on_side s) (positions st))
  then S (completed_cycles st) else completed_cycles st.
Proof. unfold on_exit_filled; destruct (_ && _); reflexivity. Qed.

Lemma high_scalp_positions_exit_filled st s b :
  get_high_scalp_positions (on_exit_filled st s b) =
  filter (fun p => negb (on_side s p)) (get_high_scalp_positions st).
Proof.
  unfold get_high_scalp_positions; rewrite positions_exit_filled; apply filter_comm.
Qed.

Lemma level_positions_order_filled st s pr sz md now :
  get_level_positions (on_order_filled st s pr sz md now) =
  get_level_positions st ++
  (if get_or false (md_is_high_price_scalp md) then []
   else [mkPos s pr sz now false (get_or level_profit_target (md_profit_target md))]).
Proof.
  unfold get_level_positions, on_order_filled; simpl; rewrite filter_app; simpl.
  destruct (get_or false _); reflexivity.
Qed.

Lemma high_scalp_positions_order_filled st s pr sz md now :
  get_high_scalp_positions (on_order_filled st s pr sz md now) =
  get_high_scalp_positions st ++
  (if get_or false (md_is_high_price_scalp md)
   then [mkPos s pr sz now true (get_or level_profit_target (md_profit_target md))]
   else []).
Proof.
  unfold get_high_scalp_positions, on_order_filled; simpl; rewrite filter_app; simpl.
  destruct (get_or false _); reflexivity.
Qed.

Lemma filter_negb_on_side s l :
  filter (fun p => negb (on_side s p)) l = filter (on_side (opposite s)) l.
Proof.
  apply filter_ext; intros p; unfold on_side; destruct s, (side p); reflexivity.
Qed.

Lemma length_filter_le {A} (f : A -> bool) l :
  (List.length (filter f l) <= List.length l)%nat.
Proof.
  induction l as [|x r IH]; simpl; [lia|]; destruct (f x); simpl; lia.
Qed.

Lemma nonempty_filter {A} (f : A -> bool) l :
  nonempty (filter f l) = true -> nonempty l = true.
Proof. destruct l; simpl; [discriminate|reflexivity]. Qed.

Lemma Qltb_true_lt a b : Qltb a b = true -> a < b.
Proof.
  unfold Qltb; intros H; apply negb_true_iff in H.
  apply Qnot_le_lt; intros Hle; apply Qle_bool_iff in Hle; congruence.
Qed.

Lemma entry_level_le l : In l entry_levels -> l <= 0.34.
Proof.
  simpl; intros [<-|[<-|[<-|[]]]]; unfold Qle; simpl; lia.
Qed.

End V2More.

Import V2More.

(** X1. On every state the V2 bot reaches from a fresh market, each HIGH_SCALP
    position has size 5, profit target 0.02 and an entry price of at least
    0.85, and each LEVEL position has size 10, profit target 0.05 and an entry
    price below 0.34. *)
Theorem v2_reachable_position_shapes st :
  V2.reachable st ->
  Forall (fun p =>
    if V2.is_high_scalp p
    then V2.pos_size p = V2.high_scalp_size /\
         V2.profit_target p = V2.high_scalp_profit_target /\
         V2.high_scalp_threshold <= V2.entry_price p
    else V2.pos_size p = V2.level_size /\
         V2.profit_target p = V2.level_profit_target /\
         V2.entry_price p < 0.34) (V2.positions st).
Proof.
  induction 1 as [|st ctx now ok Hr IH]; [constructor|].
  destruct (bot_tick_step st ctx now ok)
    as [->|[(s & b & -> & _)|[(s & l & -> & Hin & Hlt & _)|(s & -> & _ & _ & Hth)]]].
  - exact IH.
  - rewrite positions_exit_filled; apply Forall_filter_sub; exact IH.
  - simpl; apply Forall_app; split; [exact IH|]; constructor; [|constructor]; simpl.
    split; [reflexivity|split; [reflexivity|]].
    apply Qlt_le_trans with l; [apply Qltb_true_lt, Hlt|apply entry_level_le, Hin].
  - simpl; apply Forall_app; split; [exact IH|]; constructor; [|constructor]; simpl.
    split; [reflexivity|split; [reflexivity|]]. apply Qle_bool_iff, Hth.
Qed.

(** X2. On every state the V2 bot reaches from a fresh market, at most one
    HIGH_SCALP position is open. *)
Theorem v2_reachable_one_high_scalp st :
  V2.reachable st -> (V2.count_high_scalp_positions st <= 1)%nat.
Proof.
  intros Hr; change (V2.count_high_scalp_positions st)
    with (List.length (V2.get_high_scalp_positions st)).
  induction Hr as [|st ctx now ok Hr IH]; [simpl; lia|].
  destruct (bot_tick_step st ctx now ok)
    as [->|[(s & b & -> & _)|[(s & l & -> & _)|(s & -> & _ & Hh & _)]]].
  - exact IH.
  - rewrite high_scalp_positions_exit_filled.
    pose proof (length_filter_le (fun p => negb (V2.on_side s p))
                  (V2.get_high_scalp_positions st)); lia.
  - rewrite high_scalp_positions_order_filled; simpl; rewrite app_nil_r; exact IH.
  - rewrite high_scalp_positions_order_filled, Hh; simpl; lia.
Qed.

Lemma cycles_invariant st :
  V2.reachable st ->
  (V2.completed_cycles st +
   (if nonempty (V2.get_level_positions st) then 1 else 0) <= 3)%nat.
Proof.
  induction 1 as [|st ctx now ok Hr IH]; [simpl; lia|].
  destruct (bot_tick_step st ctx now ok)
    as [->|[(s & b & -> & Hb)|[(s & l & -> & _ & _ & Hc & _)|(s & -> & _)]]].
  - exact IH.
  - rewrite cycles_exit_filled, level_positions_exit_filled.
    destruct b; simpl.
    + destruct (nonempty (filter _ (V2.get_level_positions st))) eqn:E; [|lia].
      apply nonempty_filter in E; rewrite E in IH; lia.
    + specialize (Hb eq_refl).
      assert (Hlp : nonempty (V2.get_level_positions st) = true).
      { destruct (V2.get_level_positions st); [contradiction Hb; reflexivity|reflexivity]. }
      rewrite Hlp in IH.
      rewrite filter_negb_on_side.
      assert (Hop : filter (V2.on_side (V2.opposite s)) (V2.get_level_positions st) = []).
      { destruct (reachable_one_sided _ Hr) as [H|H]; destruct s; simpl;
          auto; contradiction. }
      rewrite Hop; simpl.
      destruct (nonempty (filter (V2.on_side s) (V2.positions st))); lia.
  - rewrite level_positions_order_filled; simpl.
    destruct (V2.get_level_positions st); simpl in *; unfold V2.max_completed_cycles in Hc; lia.
  - rewrite level_positions_order_filled; simpl; rewrite app_nil_r; exact IH.
Qed.

(** X3. On every state the V2 bot reaches from a fresh market, the completed-
    cycle counter is at most 3, and once it is 3 no LEVEL position is open. *)
Theorem v2_reachable_cycles_bounded st :
  V2.reachable st ->
  (V2.completed_cycles st <= V2.max_completed_cycles)%nat /\
  (V2.completed_cycles st = V2.max_completed_cycles -> V2.get_level_positions st = []).
Proof.
  intros Hr; pose proof (cycles_invariant st Hr) as H; unfold V2.max_completed_cycles.
  destruct (V2.get_level_positions st) eqn:E; simpl in H; split; auto; lia.
Qed.

(** X4. A signal of V2's evaluate_market with less than 300 s left is an EXIT
    or a high-price scalp entry of size 5; with 300 s or more left it is a
    PLACE_TP_LIMIT or a LEVEL entry, made only with at least 420 s left. *)
Theorem v2_evaluate_market_phases st ctx now sg :
  V2.evaluate_market st ctx now = Some sg ->
  (Qltb (V2.end_time ctx - now) V2.force_unwind_time = true ->
   action sg = EXIT \/
   (md_is_high_price_scalp (metadata sg) = Some true /\
    size sg = V2.high_scalp_size /\
    (action sg = ENTER_YES \/ action sg = ENTER_NO))) /\
  (Qltb (V2.end_time ctx - now) V2.force_unwind_time = false ->
   action sg = PLACE_TP_LIMIT \/
   (V2.is_level_entry sg = true /\
    Qle_bool V2.min_time_for_level_entry (V2.end_time ctx - now) = true)).
Proof.
  intros H; split; intros Ht; unfold V2.evaluate_market in H; rewrite Ht in H.
  - destruct (V2.check_force_unwind st ctx) as [x|] eqn:E1.
    { injection H as <-; left; apply (check_force_unwind_action _ _ _ E1). }
    destruct (V2.check_high_scalp_exit st ctx) as [x|] eqn:E2.
    { injection H as <-; left; apply (check_high_scalp_exit_action _ _ _ E2). }
    right; apply (check_high_scalp_entry_spec _ _ _ _ H).
  - destruct (V2.check_level_exit st ctx) as [x|] eqn:E1.
    { injection H as <-; left; apply (check_level_exit_action _ _ _ E1). }
    right; apply check_level_entry_spec in H as (s & l & _ & Hm & _ & _ & _ & _ & ->).
    split; [destruct s; reflexivity|exact Hm].
Qed.

Lemma Qsum_repeat {A} (f : A -> Q) x n :
  Qsum f (repeat x n) == inject_Z (Z.of_nat n) * f x.
Proof.
  induction n as [|n IH]; [reflexivity|].
  rewrite Nat2Z.inj_succ, <- Z.add_1_r, inject_Z_plus.
  change (Qsum f (repeat x (S n))) with (f x + Qsum f (repeat x n)).
  rewrite IH; ring.
Qed.

Lemma avg_entry_repeat x n :
  (0 < n)%nat -> 0 < V2.pos_size x -> V2.avg_entry (repeat x n) == V2.entry_price x.
Proof.
  intros Hn Hs; unfold V2.avg_entry, V2.total_size.
  rewrite !Qsum_repeat.
  assert (Hn' : ~ inject_Z (Z.of_nat n) == 0).
  { intros E; unfold Qeq in E; simpl in E; lia. }
  field; split; [|exact Hn'].
  intros E; rewrite E in Hs; apply (Qlt_irrefl 0 Hs).
Qed.

Lemma existsb_repeat {A} (f : A -> bool) x n :
  f x = false -> existsb f (repeat x n) = false.
Proof. intros H; induction n; simpl; [reflexivity|]; rewrite H, IHn; reflexivity. Qed.

Lemma filter_repeat {A} (f : A -> bool) x n :
  filter f (repeat x n) = if f x then repeat x n else [].
Proof.
  induction n as [|n IH]; simpl; [destruct (f x); reflexivity|].
  rewrite IH; destruct (f x); reflexivity.
Qed.

Lemma level_reentry_step ctx now n :
  0 < V2.yes_price ctx -> V2.yes_price ctx <= 0.33 ->
  1 - (1 + V2.level_profit_target) * V2.yes_price ctx < V2.no_price ctx ->
  V2.min_time_for_level_entry <= V2.end_time ctx - now ->
  let x := V2.mkPos YES (V2.yes_price ctx) V2.level_size now false V2.level_profit_target in
  V2.bot_tick (V2.mkState (repeat x n) 0) ctx now true = V2.mkState (repeat x (S n)) 0.
Proof.
  intros Hp Hp33 Hq Ht x.
  assert (Hq0 : 0 < V2.no_price ctx).
  { unfold V2.level_profit_target in Hq; lra. }
  unfold V2.bot_tick.
  replace (Qeq_bool (V2.yes_price ctx) 0) with false
    by (symmetry; apply not_true_iff_false; intros E; apply Qeq_bool_iff in E;
        rewrite E in Hp; apply (Qlt_irrefl 0 Hp)).
  replace (Qeq_bool (V2.no_price ctx) 0) with false
    by (symmetry; apply not_true_iff_false; intros E; apply Qeq_bool_iff in E;
        rewrite E in Hq0; apply (Qlt_irrefl 0 Hq0)).
  simpl orb; cbv iota.
  assert (Hlp : V2.get_level_positions (V2.mkState (repeat x n) 0) = repeat x n).
  { unfold V2.get_level_positions; simpl; rewrite filter_repeat; reflexivity. }
  assert (Hy : filter (V2.on_side YES) (repeat x n) = repeat x n)
    by (rewrite filter_repeat; reflexivity).
  assert (Hn : filter (V2.on_side NO) (repeat x n) = [])
    by (rewrite filter_repeat; reflexivity).
  assert (Hexit : V2.check_level_exit (V2.mkState (repeat x n) 0) ctx = None).
  { unfold V2.check_level_exit; rewrite Hlp, Hy, Hn.
    destruct n as [|m]; [reflexivity|]; simpl nonempty; cbv iota beta zeta.
    replace (Qle_bool (V2.no_price ctx) _) with false; [reflexivity|].
    symmetry; apply not_true_iff_false; intros E; apply Qle_bool_iff in E.
    rewrite (avg_entry_repeat x (S m)) in E; [|lia|reflexivity].
    simpl in E; apply (Qlt_not_le _ _ Hq E). }
  assert (Hhas : V2.has_position_at_level (V2.mkState (repeat x n) 0) 0.34 = false).
  { unfold V2.has_position_at_level; rewrite Hlp; apply existsb_repeat.
    change (Qltb (Qabs (V2.yes_price ctx - 0.34)) 0.01 = false).
    unfold Qltb; apply negb_false_iff, Qle_bool_iff.
    rewrite Qabs_neg; lra. }
  unfold V2.evaluate_market.
  replace (Qltb (V2.end_time ctx - now) V2.force_unwind_time) with false
    by (symmetry; unfold Qltb; apply negb_false_iff, Qle_bool_iff;
        unfold V2.min_time_for_level_entry, V2.force_unwind_time in *; lra).
  rewrite Hexit; unfold V2.check_level_entry.
  replace (Qltb (V2.end_time ctx - now) V2.min_time_for_level_entry) with false
    by (symmetry; unfold Qltb; apply negb_false_iff, Qle_bool_iff; exact Ht).
  simpl V2.completed_cycles; cbv iota.
  rewrite Hlp, Hy, Hn.
  replace (nonempty (repeat x n) && nonempty (@nil V2.LevelPosition)) with false
    by (rewrite andb_false_r; reflexivity).
  simpl first_such.
  replace (Qltb (V2.yes_price ctx) 0.34) with true
    by (symmetry; unfold Qltb; apply negb_true_iff, not_true_iff_false;
        intros E; apply Qle_bool_iff in E; lra).
  rewrite Hhas; simpl.
  unfold V2.bot_execute; simpl; rewrite repeat_cons; reflexivity.
Qed.

(** X5. With a YES ask in (0, 0.33], a NO ask above the take-profit target and
    at least 420 s left, every tick of the V2 bot with a successful order buys
    one more YES LEVEL position at the same price: after n ticks from a fresh
    market it holds n identical positions. *)
Theorem v2_level_reentry ctx now n :
  0 < V2.yes_price ctx -> V2.yes_price ctx <= 0.33 ->
  1 - (1 + V2.level_profit_target) * V2.yes_price ctx < V2.no_price ctx ->
  V2.min_time_for_level_entry <= V2.end_time ctx - now ->
  V2.positions (Nat.iter n (fun st => V2.bot_tick st ctx now true) V2.empty_state) =
  repeat (V2.mkPos YES (V2.yes_price ctx) V2.level_size now false
            V2.level_profit_target) n.
Proof.
  intros Hp Hp33 Hq Ht.
  enough (E : Nat.iter n (fun st => V2.bot_tick st ctx now true) V2.empty_state =
              V2.mkState (repeat (V2.mkPos YES (V2.yes_price ctx) V2.level_size now
                                    false V2.level_profit_target) n) 0)
    by (rewrite E; reflexivity).
  induction n as [|n IH]; [reflexivity|].
  simpl Nat.iter; rewrite IH; apply level_reentry_step; assumption.
Qed.

Lemma v2_level_reentry_witness :
  V2.positions (Nat.iter 4 (fun st => V2.bot_tick st
                  (V2.mkCtx 1000 0.30 0.70 "yes" "no") 280 true) V2.empty_state) =
  repeat (V2.mkPos YES 0.30 V2.level_size 280 false V2.level_profit_target) 4.
Proof.
  apply (v2_level_reentry (V2.mkCtx 1000 0.30 0.70 "yes" "no") 280 4);
    simpl; unfold V2.level_profit_target, V2.min_time_for_level_entry; lra.
Defined.

Lemma Qltb_false_le a b : Qltb a b = false -> b <= a.
Proof. unfold Qltb; intros H; apply negb_false_iff, Qle_bool_iff in H; exact H. Qed.

Lemma total_size_pos_ne l :
  Forall (fun p => 0 < V2.pos_size p) l -> l <> [] -> 0 < V2.total_size l.
Proof. destruct l; [contradiction|]; intros H _; apply total_size_pos, H. Qed.

(** X6. On every state the V2 bot reaches, get_position_summary reports no
    position exactly when there are no positions, and a reported summary has a
    positive size. *)
Theorem v2_position_summary_present st ctx :
  V2.reachable st ->
  (V2.get_position_summary st ctx = None <-> V2.positions st = []) /\
  (forall sm, V2.get_position_summary st ctx = Some sm -> 0 < V2.sum_size sm).
Proof.
  intros Hr; pose proof (reachable_sizes_pos st Hr) as Hpos.
  unfold V2.get_position_summary.
  destruct (V2.positions st) as [|p r] eqn:E.
  { simpl; split; [tauto|discriminate]. }
  simpl nonempty; cbv iota beta zeta.
  set (ys := filter (V2.on_side YES) (p :: r)).
  set (ns := filter (V2.on_side NO) (p :: r)).
  assert (Hy : Forall (fun p => 0 < V2.pos_size p) ys) by (apply Forall_filter_sub, Hpos).
  assert (Hn : Forall (fun p => 0 < V2.pos_size p) ns) by (apply Forall_filter_sub, Hpos).
  pose proof (total_size_nonneg _ Hy) as Hy0.
  pose proof (total_size_nonneg _ Hn) as Hn0.
  destruct (Qltb (V2.total_size ns) (V2.total_size ys)) eqn:E1.
  - apply Qltb_true_lt in E1; split; [split; [discriminate|discriminate]|].
    intros sm H; injection H as <-; simpl; apply Qle_lt_trans with (V2.total_size ns);
      assumption.
  - apply Qltb_false_le in E1.
    assert (Hn1 : 0 < V2.total_size ns).
    { destruct ns as [|n ns'] eqn:En.
      - assert (ys <> []).
        { intros Hys; apply (filter_sides_nil (p :: r)) in Hys; [discriminate|exact En]. }
        apply Qlt_le_trans with (V2.total_size ys); [|exact E1].
        apply total_size_pos_ne; assumption.
      - apply total_size_pos_ne; [assumption|discriminate]. }
    replace (Qltb 0 (V2.total_size ns)) with true
      by (symmetry; unfold Qltb; apply negb_true_iff, not_true_iff_false;
          intros H; apply Qle_bool_iff in H; apply (Qlt_not_le _ _ Hn1 H)).
    split; [split; discriminate|].
    intros sm H; injection H as <-; exact Hn1.
Qed.

(** X7. The V2 bot leaves the strategy state unchanged when the YES or the NO
    token has no order book, or a book without asks. *)
Theorem botv2_skips_without_ask bs st ctx now ok :
  (exists t, (t = V2.token_yes ctx \/ t = V2.token_no ctx) /\
     (Book.find_book t bs = None \/
      exists ob, Book.find_book t bs = Some ob /\ Book.asks ob = [])) ->
  BotV2.evaluate_market bs st ctx now ok = st.
Proof.
  intros (t & Ht & Hb).
  assert (H0 : snd (Book.get_price bs t) = 0).
  { unfold Book.get_price.
    destruct Hb as [-> | (ob & -> & Ha)]; [reflexivity|].
    simpl; unfold Book.get_best_ask; rewrite Ha; reflexivity. }
  unfold BotV2.evaluate_market, V2.bot_tick; simpl V2.yes_price; simpl V2.no_price.
  destruct Ht as [<- | <-]; rewrite H0; simpl;
    [reflexivity|rewrite orb_true_r; reflexivity].
Qed.

Lemma botv2_skips_without_ask_witness :
  BotV2.evaluate_market
    [("yes"%string, Book.mkBook [(0.40, 10)] [(0.45, 10)]);
     ("no"%string, Book.mkBook [(0.50, 5)] [])]
    V2.empty_state (V2.mkCtx 1000 0.5 0.5 "yes" "no") 280 true = V2.empty_state.
Proof.
  apply botv2_skips_without_ask.
  exists "no"%string; split; [right; reflexivity|].
  right; eexists; split; reflexivity.
Defined.

Module BookFacts.

Lemma fold_max_ge (r : list (Q * Q)) m :
  m <= fold_left (fun m kv => if Qltb m (fst kv) then fst kv else m) r m /\
  forall kv : Q * Q, In kv r -> fst kv <= fold_left (fun m kv => if Qltb m (fst kv) then fst kv else m) r m.
Proof.
  revert m; induction r as [|kv r IH]; intros m; simpl.
  - split; [apply Qle_refl|tauto].
  - destruct (Qltb m (fst kv)) eqn:E.
    + destruct (IH (fst kv)) as [H1 H2]; split.
      * apply Qle_trans with (fst kv); [apply Qlt_le_weak, Qltb_true_lt, E|exact H1].
      * intros kv' [<-|Hin]; auto.
    + destruct (IH m) as [H1 H2]; split; [exact H1|].
      intros kv' [<-|Hin]; auto.
      apply Qle_trans with m; [apply Qltb_false_le, E|exact H1].
Qed.

Lemma fold_max_in (r : list (Q * Q)) m :
  fold_left (fun m kv => if Qltb m (fst kv) then fst kv else m) r m = m \/
  exists kv : Q * Q, In kv r /\ fold_left (fun m kv => if Qltb m (fst kv) then fst kv else m) r m = fst kv.
Proof.
  revert m; induction r as [|kv r IH]; intros m; simpl; [left; reflexivity|].
  destruct (Qltb m (fst kv)).
  - destruct (IH (fst kv)) as [H|(kv' & Hin & H)]; right;
      [exists kv; auto|exists kv'; auto].
  - destruct (IH m) as [H|(kv' & Hin & H)]; [left; exact H|right; exists kv'; auto].
Qed.

Lemma fold_min_le (r : list (Q * Q)) m :
  fold_left (fun m kv => if Qltb (fst kv) m then fst kv else m) r m <= m /\
  forall kv : Q * Q, In kv r -> fold_left (fun m kv => if Qltb (fst kv) m then fst kv else m) r m <= fst kv.
Proof.
  revert m; induction r as [|kv r IH]; intros m; simpl.
  - split; [apply Qle_refl|tauto].
  - destruct (Qltb (fst kv) m) eqn:E.
    + destruct (IH (fst kv)) as [H1 H2]; split.
      * apply Qle_trans with (fst kv); [exact H1|apply Qlt_le_weak, Qltb_true_lt, E].
      * intros kv' [<-|Hin]; auto.
    + destruct (IH m) as [H1 H2]; split; [exact H1|].
      intros kv' [<-|Hin]; auto.
      apply Qle_trans with m; [exact H1|apply Qltb_false_le, E].
Qed.

Lemma best_bid_ge ob kv : In kv (Book.bids ob) -> fst kv <= Book.get_best_bid ob.
Proof.
  unfold Book.get_best_bid; destruct (Book.bids ob) as [|[k v] r]; [contradiction|].
  intros [<-|Hin]; [exact (proj1 (fold_max_ge r k))|apply (proj2 (fold_max_ge r k)), Hin].
Qed.

Lemma best_bid_in ob :
  Book.bids ob <> [] -> exists v, In (Book.get_best_bid ob, v) (Book.bids ob).
Proof.
  unfold Book.get_best_bid; destruct (Book.bids ob) as [|[k v] r]; [tauto|]; intros _.
  destruct (fold_max_in r k) as [->|([k' v'] & Hin & ->)];
    [exists v; left; reflexivity|exists v'; right; exact Hin].
Qed.

Lemma best_ask_le ob kv : In kv (Book.asks ob) -> Book.get_best_ask ob <= fst kv.
Proof.
  unfold Book.get_best_ask; destruct (Book.asks ob) as [|[k v] r]; [contradiction|].
  intros [<-|Hin]; [exact (proj1 (fold_min_le r k))|apply (proj2 (fold_min_le r k)), Hin].
Qed.

Lemma set_has_key p s m : exists k, In (k, s) (Book.set p s m) /\ k == p.
Proof.
  induction m as [|[k v] r IH]; simpl.
  - exists p; split; [left; reflexivity|apply Qeq_refl].
  - destruct (Qeq_bool p k) eqn:E.
    + exists k; split; [left; reflexivity|apply Qeq_sym, Qeq_bool_iff, E].
    + destruct IH as (k' & Hin & Hk); exists k'; split; [right; exact Hin|exact Hk].
Qed.

Lemma lookup_in p k v m :
  In (k, v) m -> Qeq_bool p k = true -> exists v', Book.lookup p m = Some v'.
Proof.
  induction m as [|[k' v'] r IH]; simpl; [tauto|].
  intros [E|Hin] Hpk.
  - injection E as -> ->; rewrite Hpk; eauto.
  - destruct (Qeq_bool p k'); eauto.
Qed.

End BookFacts.

Import BookFacts.

(** X8. A BUY price change with a nonzero size makes the best bid at least its
    price and leaves the asks unchanged; a SELL change with a nonzero size
    makes the best ask at most its price and leaves the bids unchanged. *)
Theorem book_change_best_price ob c p s :
  Book.c_price c = Some p -> Book.c_size c = Some s -> ~ s == 0 ->
  (Book.c_side c = "BUY"%string ->
   p <= Book.get_best_bid (Book.apply_change ob c) /\
   Book.asks (Book.apply_change ob c) = Book.asks ob) /\
  (Book.c_side c = "SELL"%string ->
   Book.get_best_ask (Book.apply_change ob c) <= p /\
   Book.bids (Book.apply_change ob c) = Book.bids ob).
Proof.
  destruct c as [sd cp cs]; simpl; intros -> -> Hs.
  assert (Hs0 : Qeq_bool s 0 = false)
    by (apply not_true_iff_false; intros E; apply Qeq_bool_iff in E; contradiction).
  split; intros ->; unfold Book.apply_change; simpl;
    unfold Book.update, Book.update_side, Book.update_level; simpl; rewrite Hs0; (split; [|reflexivity]).
  - destruct (set_has_key p s (Book.bids ob)) as (k & Hin & Hk).
    pose proof (best_bid_ge (Book.mkBook _ (Book.asks ob)) (k, s) Hin) as H; simpl in H; lra.
  - destruct (set_has_key p s (Book.asks ob)) as (k & Hin & Hk).
    pose proof (best_ask_le (Book.mkBook (Book.bids ob) _) (k, s) Hin) as H; simpl in H; lra.
Qed.

Lemma book_change_best_price_witness :
  0.52 <= Book.get_best_bid
            (Book.apply_change (Book.mkBook [(0.48, 10); (0.50, 3)] [(0.55, 7)])
               (Book.mkChange "BUY" (Some 0.52) (Some 4))).
Proof.
  apply (proj1 (book_change_best_price
                  (Book.mkBook [(0.48, 10); (0.50, 3)] [(0.55, 7)])
                  (Book.mkChange "BUY" (Some 0.52) (Some 4)) 0.52 4
                  eq_refl eq_refl ltac:(discriminate)) eq_refl).
Defined.

Lemma best_bid_remove ob a :
  Book.remove (Book.get_best_bid ob) (Book.bids ob) = [] \/
  Book.get_best_bid (Book.mkBook (Book.remove (Book.get_best_bid ob) (Book.bids ob)) a)
    < Book.get_best_bid ob.
Proof.
  destruct (Book.remove (Book.get_best_bid ob) (Book.bids ob)) as [|kv1 r1] eqn:Em;
    [left; reflexivity|right].
  rewrite <- Em.
  destruct (best_bid_in (Book.mkBook (Book.remove (Book.get_best_bid ob) (Book.bids ob)) a))
    as [v1 Hin1]; [cbn [Book.bids]; rewrite Em; discriminate|].
  cbn [Book.bids] in Hin1.
  unfold Book.remove in Hin1; apply filter_In in Hin1 as [Hin1 Hne].
  cbn [fst] in Hne; apply negb_true_iff in Hne.
  pose proof (best_bid_ge ob _ Hin1) as Hle; cbn [fst] in Hle.
  apply Qle_lt_or_eq in Hle as [Hlt|Heq]; [exact Hlt|].
  exfalso; apply Qeq_sym, Qeq_bool_iff in Heq; congruence.
Qed.

(** X9. Deleting the best bid (a BUY change of size 0 at that price) either
    empties the bids or strictly lowers the best bid, and leaves the asks
    unchanged. *)
Theorem book_delete_best_bid ob :
  let ob' := Book.apply_change ob
               (Book.mkChange "BUY" (Some (Book.get_best_bid ob)) (Some 0)) in
  (Book.bids ob' = [] \/ Book.get_best_bid ob' < Book.get_best_bid ob) /\
  Book.asks ob' = Book.asks ob.
Proof.
  cbv zeta.
  assert (E : Book.apply_change ob
                (Book.mkChange "BUY" (Some (Book.get_best_bid ob)) (Some 0)) =
              Book.mkBook (if Book.mem (Book.get_best_bid ob) (Book.bids ob)
                           then Book.remove (Book.get_best_bid ob) (Book.bids ob)
                           else Book.bids ob) (Book.asks ob)) by reflexivity.
  rewrite E; cbn [Book.bids Book.asks]; split; [|reflexivity].
  destruct (Book.bids ob) as [|kv0 r0] eqn:Eb.
  - left; reflexivity.
  - destruct (best_bid_in ob) as [v Hin]; [rewrite Eb; discriminate|].
    rewrite Eb in Hin.
    destruct (lookup_in _ _ v _ Hin (Qeq_bool_refl _)) as [v' Hl].
    unfold Book.mem; rewrite Hl, <- Eb; apply best_bid_remove.
Qed.

Module V1Facts.
Import V1.

(** What [evaluate_market] may change and which signals it may emit. *)
Definition frame (st st' : MarketState) : Prop :=
  positions st' = positions st /\ high_scalp_count st' = high_scalp_count st /\
  active_exit_orders st' = active_exit_orders st /\ trade_count st' = trade_count st.

Lemma frame_refl st : frame st st.
Proof. repeat split. Qed.

Lemma check_entry_spec st ctx now :
  frame st (snd (check_entry st ctx now)) /\
  forall sg, fst (check_entry st ctx now) = Some sg ->
    (action sg = ENTER_YES \/ action sg = ENTER_NO) /\
    md_is_high_price_scalp (metadata sg) = None /\ active_exit_orders st = [].
Proof.
  unfold check_entry.
  destruct (Nat.leb _ _); [split; [apply frame_refl|discriminate]|].
  destruct (Qltb _ 300); [split; [apply frame_refl|discriminate]|].
  destruct (Qltb _ 420); [split; [apply frame_refl|discriminate]|].
  destruct (active_exit_orders st) as [|a r] eqn:Ea;
    [|split; [apply frame_refl|discriminate]].
  cbn [nonempty].
  destruct (lowest_unentered _ YES _) as [il|].
  - split; [repeat split; simpl; auto|].
    intros sg E; injection E as <-; simpl; auto.
  - destruct (lowest_unentered _ NO _) as [il|].
    + split; [repeat split; simpl; auto|].
      intros sg E; injection E as <-; simpl; auto.
    + split; [apply frame_refl|discriminate].
Qed.

Lemma exit_for_side_action s ps ctx tr sg :
  exit_for_side s ps ctx tr = Some sg -> action sg = EXIT \/ action sg = PLACE_TP_LIMIT.
Proof.
  unfold exit_for_side.
  destruct (existsb _ _); [destruct (Qle_bool _ _); [|discriminate]|].
  - intros E; injection E as <-; auto.
  - destruct (Qle_bool _ (1 - _)); [|discriminate].
    destruct (Qle_bool _ 300); intros E; injection E as <-; auto.
Qed.

Lemma check_exit_spec st ctx now :
  frame st (snd (check_exit st ctx now)) /\
  forall sg, fst (check_exit st ctx now) = Some sg ->
    action sg = EXIT \/ action sg = PLACE_TP_LIMIT.
Proof.
  unfold check_exit.
  destruct (negb _); [split; [apply frame_refl|discriminate]|].
  destruct (Qltb _ 1); [split; [apply frame_refl|discriminate]|].
  destruct (if nonempty (side_positions YES _) then _ else None) as [sg|] eqn:E1.
  - split; [repeat split|].
    intros sg' E; injection E as <-; revert E1.
    destruct (nonempty (side_positions YES (positions st))); [apply exit_for_side_action|discriminate].
  - destruct (if nonempty (side_positions NO _) then _ else None) as [sg|] eqn:E2.
    + split; [repeat split|].
      intros sg' E; injection E as <-; revert E2.
      destruct (nonempty (side_positions NO (positions st))); [apply exit_for_side_action|discriminate].
    + split; [apply frame_refl|discriminate].
Qed.

Lemma force_unwind_action st ctx py pn sg :
  force_unwind st ctx py pn = Some sg -> action sg = EXIT.
Proof.
  unfold force_unwind.
  repeat match goal with
         | |- context [if ?b then _ else _] => destruct b
         end; try discriminate; intros E; injection E as <-; reflexivity.
Qed.

Lemma check_high_price_scalping_spec st ctx now sg :
  check_high_price_scalping st ctx now = Some sg ->
  (action sg = ENTER_YES \/ action sg = ENTER_NO) /\
  md_is_high_price_scalp (metadata sg) = Some true /\
  (high_scalp_count st < max_high_scalp_count)%nat /\
  filter is_high_price_scalp (positions st) = [] /\ active_exit_orders st = [].
Proof.
  unfold check_high_price_scalping; cbn [negb enable_high_price_scalping].
  destruct (Qle_bool 300 _); [discriminate|].
  destruct (filter is_high_price_scalp (positions st)) as [|p r];
    [|discriminate].
  destruct (active_exit_orders st) as [|a r]; [|discriminate].
  cbn [nonempty orb].
  destruct (Nat.leb max_high_scalp_count (high_scalp_count st)) eqn:En; [discriminate|].
  apply Nat.leb_gt in En.
  destruct (Qle_bool _ (V2.yes_price ctx));
    [|destruct (Qle_bool _ (V2.no_price ctx)); [|discriminate]];
    intros E; injection E as <-; simpl; auto 7.
Qed.

Lemma evaluate_market_spec st ctx py pn now o st' :
  evaluate_market st ctx py pn now = (o, st') ->
  frame st st' /\
  forall sg, o = Some sg ->
    (action sg = EXIT \/ action sg = PLACE_TP_LIMIT) \/
    ((action sg = ENTER_YES \/ action sg = ENTER_NO) /\
     md_is_high_price_scalp (metadata sg) = None /\ active_exit_orders st = []) \/
    ((action sg = ENTER_YES \/ action sg = ENTER_NO) /\
     md_is_high_price_scalp (metadata sg) = Some true /\
     (high_scalp_count st < max_high_scalp_count)%nat /\
     filter is_high_price_scalp (positions st) = [] /\ active_exit_orders st = []).
Proof.
  unfold evaluate_market.
  destruct (Qle_bool _ 300).
  - destruct (if nonempty (positions st) then _ else None) as [sg|] eqn:Ef.
    + intros E; injection E as <- <-; split; [apply frame_refl|].
      intros sg' E; injection E as <-; left; left; revert Ef.
      destruct (nonempty (positions st)); [apply force_unwind_action|discriminate].
    + intros E; injection E as <- <-; split; [apply frame_refl|].
      intros sg E; right; right; exact (check_high_price_scalping_spec _ _ _ _ E).
  - pose proof (check_exit_spec st ctx now) as [Hf Hs].
    destruct (check_exit st ctx now) as [[sg|] s1].
    + intros E; injection E as <- <-; split; [exact Hf|].
      intros sg' E; injection E as <-; left; apply Hs; reflexivity.
    + pose proof (check_entry_spec s1 ctx now) as [Hf' Hs'].
      intros E; rewrite E in Hf', Hs'; cbn [snd fst] in *.
      destruct Hf as (Hp & Hh & Ha & Ht); destruct Hf' as (Hp' & Hh' & Ha' & Ht').
      split; [repeat split; congruence|].
      intros sg Eo; right; left.
      destruct (Hs' sg Eo) as (H1 & H2 & H3); rewrite <- Ha; auto.
Qed.

Lemma force_unwind_positions st ctx py pn py' pn' :
  nonempty (positions st) = true ->
  force_unwind st ctx py pn = force_unwind st ctx py' pn'.
Proof. unfold force_unwind; intros ->; reflexivity. Qed.

End V1Facts.

Import V1Facts.

(** X10. V1's evaluate_market never depends on the context's position_yes and
    position_no: the branch of _force_unwind that reads them is only reached
    with no positions, where evaluate_market does not call it. *)
Theorem v1_evaluate_ignores_context_positions st ctx py pn py' pn' now :
  V1.evaluate_market st ctx py pn now = V1.evaluate_market st ctx py' pn' now.
Proof.
  unfold V1.evaluate_market.
  destruct (Qle_bool _ 300); [|reflexivity].
  destruct (nonempty (V1.positions st)) eqn:E; [|reflexivity].
  rewrite (force_unwind_positions st ctx py pn py' pn' E); reflexivity.
Qed.

(** X11. While a V1 market has an active exit order, evaluate_market emits no
    ENTER_YES or ENTER_NO signal and keeps the active exit orders. *)
Theorem v1_active_exit_blocks_entries st ctx py pn now sg st' :
  V1.active_exit_orders st <> [] ->
  V1.evaluate_market st ctx py pn now = (Some sg, st') ->
  action sg <> ENTER_YES /\ action sg <> ENTER_NO /\
  V1.active_exit_orders st' = V1.active_exit_orders st.
Proof.
  intros Ha E; destruct (evaluate_market_spec _ _ _ _ _ _ _ E) as [(_ & _ & Ha' & _) Hs].
  split; [|split; [|exact Ha']];
    destruct (Hs sg eq_refl) as [[-> | ->]|[(_ & _ & H)|(_ & _ & _ & _ & H)]];
    try discriminate; contradiction.
Qed.

Lemma v1_active_exit_blocks_entries_witness :
  exists sg st',
    V1.evaluate_market
      (V1.mkState [V1.mkPos 0.34 YES 0.30 10 0 false 0.05] [] 0 0 ["tp-1"%string] None None)
      (V2.mkCtx 1000 0.5 0.6 "y" "n") 0 0 100 = (Some sg, st') /\
    action sg <> ENTER_YES /\ action sg <> ENTER_NO /\
    V1.active_exit_orders st' = ["tp-1"%string].
Proof.
  do 2 eexists; split; [reflexivity|].
  apply (v1_active_exit_blocks_entries
           (V1.mkState [V1.mkPos 0.34 YES 0.30 10 0 false 0.05] [] 0 0 ["tp-1"%string] None None)
           (V2.mkCtx 1000 0.5 0.6 "y" "n") 0 0 100); [discriminate|reflexivity].
Defined.

(** X12. With trading enabled and a TP order placement that does not raise,
    the web bot's PLACE_TP_LIMIT handler only sets the market's active exit
    orders, and leaves them nonempty. *)
Theorem web_tp_sets_active_exit te st sg balance resp :
  te = true -> resp <> Web.Raised ->
  exists a, snd (Web.tp_handler te st sg balance resp) = Web.set_active st a /\ a <> [].
Proof.
  intros -> Hr; unfold Web.tp_handler; cbn [negb].
  destruct (Web.active st) as [|x r] eqn:Ea; cbn [nonempty].
  - destruct (String.eqb _ "SELL"%string); [|destruct (Qltb balance _)];
      cbn [snd]; try (eexists; split; [reflexivity|discriminate]);
      destruct resp; try contradiction; eexists; (split; [reflexivity|discriminate]).
  - exists (Web.active st); rewrite Ea; split; [|discriminate].
    destruct st as [[] ? ? ? ? ? ? ?]; unfold Web.active in Ea; simpl in Ea |- *; subst; reflexivity.
Qed.

Lemma web_tp_sets_active_exit_witness :
  exists a,
    snd (Web.tp_handler true Web.init
           (mkSignal PLACE_TP_LIMIT "tok" 0.6 10 HIGH empty_metadata) 100 (Web.Resp None))
    = Web.set_active Web.init a /\ a <> [].
Proof. apply web_tp_sets_active_exit; [reflexivity|discriminate]. Defined.

Lemma firstn_cancels (l : list string) rest :
  firstn (List.length l) (map Web.CancelOrder l ++ rest) = map Web.CancelOrder l.
Proof. induction l as [|x l IH]; simpl; [reflexivity|rewrite IH; reflexivity]. Qed.

(** X13. With trading enabled, the web bot's exit handler first cancels every
    active exit order, clears them, keeps the high-scalp count, and either
    changes nothing else or drops the strategy positions of the side chosen by
    position_yes > 0 (not by the signal) and counts one more trade. *)
Theorem web_exit_side_from_context te st sg balance venue :
  te = true ->
  let r := Web.exit_handler te st sg balance venue in
  let sd := if Qltb 0 (Web.position_yes st) then YES else NO in
  firstn (List.length (Web.active st)) (fst r) = map Web.CancelOrder (Web.active st) /\
  Web.active (snd r) = [] /\
  V1.high_scalp_count (Web.strat (snd r)) = V1.high_scalp_count (Web.strat st) /\
  (snd r = Web.set_active st [] \/
   (V1.positions (Web.strat (snd r)) =
      filter (fun p => negb (side_eqb (V1.side p) sd)) (V1.positions (Web.strat st)) /\
    Web.total_trades (snd r) = S (Web.total_trades st))).
Proof.
  intros ->; cbv zeta; unfold Web.exit_handler; cbn [negb].
  destruct (match action sg with
            | EXIT => _ | _ => _ end) as [[[[q a] t] p] os].
  destruct (if negb (venue _) && _ && _ then _ else _) as [[[[fo su] a'] t'] p'].
  destruct su; cbn [fst snd]; rewrite <- app_assoc, firstn_cancels;
    (split; [reflexivity|]).
  - split; [reflexivity|split; [reflexivity|right; split; reflexivity]].
  - split; [reflexivity|split; [reflexivity|left; reflexivity]].
Qed.

Lemma web_exit_side_from_context_witness :
  let st := Web.mkWeb
              (V1.mkState [V1.mkPos 0.34 YES 0.30 10 0 false 0.05;
                           V1.mkPos 0.24 NO 0.20 10 5 false 0.05]
                 [] 0 0 ["tp-1"%string] None None) 10 0.30 10 0.20 0 0 0 in
  let sg := mkSignal EXIT "n" 0.6 10 HIGH empty_metadata in
  let r := Web.exit_handler true st sg 100 (fun _ => true) in
  let sd := if Qltb 0 (Web.position_yes st) then YES else NO in
  firstn (List.length (Web.active st)) (fst r) = map Web.CancelOrder (Web.active st) /\
  Web.active (snd r) = [] /\
  V1.high_scalp_count (Web.strat (snd r)) = V1.high_scalp_count (Web.strat st) /\
  (snd r = Web.set_active st [] \/
   (V1.positions (Web.strat (snd r)) =
      filter (fun p => negb (side_eqb (V1.side p) sd)) (V1.positions (Web.strat st)) /\
    Web.total_trades (snd r) = S (Web.total_trades st))).
Proof. apply web_exit_side_from_context; reflexivity. Defined.

Module WebFacts.

Lemma tp_handler_strat te st sg balance resp :
  V1.positions (Web.strat (snd (Web.tp_handler te st sg balance resp))) =
    V1.positions (Web.strat st) /\
  V1.high_scalp_count (Web.strat (snd (Web.tp_handler te st sg balance resp))) =
    V1.high_scalp_count (Web.strat st).
Proof.
  unfold Web.tp_handler.
  destruct te; cbn [negb]; [|split; reflexivity].
  destruct (nonempty (Web.active st)); [split; reflexivity|].
  destruct (String.eqb _ "SELL"%string); [|destruct (Qltb balance _)];
    destruct resp; split; reflexivity.
Qed.

Lemma exit_handler_strat te st sg balance venue :
  V1.high_scalp_count (Web.strat (snd (Web.exit_handler te st sg balance venue))) =
    V1.high_scalp_count (Web.strat st) /\
  exists f, V1.positions (Web.strat (snd (Web.exit_handler te st sg balance venue))) =
    filter f (V1.positions (Web.strat st)).
Proof.
  unfold Web.exit_handler.
  destruct te; cbn [negb].
  2:{ split; [reflexivity|exists (fun _ => true); rewrite filter_true; reflexivity]. }
  destruct (match action sg with
            | EXIT => _ | _ => _ end) as [[[[q a] t] p] os].
  destruct (if negb (venue _) && _ && _ then _ else _) as [[[[fo su] a'] t'] p'].
  destruct su; cbn [snd]; (split; [reflexivity|]).
  - eexists; reflexivity.
  - exists (fun _ => true); rewrite filter_true; reflexivity.
Qed.

Lemma enter_handler_strat te st sg venue now :
  Web.strat (snd (Web.enter_handler te st sg venue now)) = Web.strat st \/
  exists s pr sz level,
    Web.strat (snd (Web.enter_handler te st sg venue now)) =
      V1.on_order_filled (Web.strat st) s pr sz level (metadata sg) now.
Proof.
  unfold Web.enter_handler.
  destruct te; cbn [negb]; [|left; reflexivity].
  destruct (action sg); try (left; reflexivity);
    (destruct (venue _); [|left; reflexivity]);
    (destruct (Qeq_bool _ 0); [left; reflexivity|]);
    cbn [snd Web.strat]; (destruct (metadata_truthy _); [right; do 4 eexists; reflexivity|left; reflexivity]).
Qed.

Lemma length_filter_filter {A} (g f : A -> bool) l :
  (List.length (filter g (filter f l)) <= List.length (filter g l))%nat.
Proof.
  induction l as [|x l IH]; simpl; [lia|].
  destruct (f x), (g x) eqn:E; simpl; try rewrite E; simpl; lia.
Qed.

Lemma filter_app_length {A} (g : A -> bool) l x :
  List.length (filter g (l ++ [x])) =
    (List.length (filter g l) + if g x then 1 else 0)%nat.
Proof. rewrite filter_app, length_app; simpl; destruct (g x); reflexivity. Qed.

End WebFacts.

Import WebFacts.

(** X14. On every state the web bot reaches from a fresh market, the
    strategy's high-scalp count is at most 4 and at most one high-price scalp
    position is open. *)
Theorem web_reachable_high_scalp te st :
  Web.reachable te st ->
  (V1.high_scalp_count (Web.strat st) <= V1.max_high_scalp_count)%nat /\
  (List.length (filter V1.is_high_price_scalp (V1.positions (Web.strat st))) <= 1)%nat.
Proof.
  induction 1 as [|st ctx now balance resp venue _ [IHc IHp]];
    [unfold V1.max_high_scalp_count; simpl; lia|].
  unfold Web.tick.
  destruct (_ || _); [split; assumption|].
  destruct (V1.evaluate_market _ _ _ _ _) as [o s'] eqn:E.
  destruct (evaluate_market_spec _ _ _ _ _ _ _ E) as [(Hp & Hh & _ & _) Hs].
  set (st1 := Web.with_strat st s').
  assert (Hp1 : V1.positions (Web.strat st1) = V1.positions (Web.strat st)) by exact Hp.
  assert (Hh1 : V1.high_scalp_count (Web.strat st1) = V1.high_scalp_count (Web.strat st))
    by exact Hh.
  destruct o as [sg|]; [|rewrite <- Hp1, <- Hh1 in *; split; assumption].
  specialize (Hs sg eq_refl).
  destruct (action sg) eqn:Ea.
  1,2:
    destruct (enter_handler_strat te st1 sg venue now) as [->|(s & pr & sz & lv & ->)];
    [rewrite Hp1, Hh1; split; assumption|];
    unfold V1.on_order_filled; cbn [V1.positions V1.high_scalp_count];
    rewrite filter_app_length; cbn [V1.is_high_price_scalp];
    destruct Hs as [[H|H]|[(_ & H & _)|(_ & H & Hc & Hf & _)]]; try congruence;
    rewrite H; cbn [get_or]; rewrite Hp1, Hh1;
    [split; [assumption|lia]|rewrite Hf; simpl; split; [lia|lia]].
  1,2:
    destruct (exit_handler_strat te st1 sg balance venue) as [Hc (f & Hf)];
    rewrite Hc, Hf, Hp1, Hh1; split; [assumption|];
    eapply Nat.le_trans; [apply length_filter_filter|assumption].
  destruct (tp_handler_strat te st1 sg balance resp) as [Hq Hc];
    rewrite Hq, Hc, Hp1, Hh1; split; assumption.
Qed.

Lemma web_reachable_high_scalp_witness :
  (V1.high_scalp_count
     (Web.strat (Web.tick true Web.init (V2.mkCtx 1000 0.90 0.08 "y" "n") 800 100
                   (Web.Resp None) (fun _ => true))) <= V1.max_high_scalp_count)%nat /\
  (List.length (filter V1.is_high_price_scalp
     (V1.positions (Web.strat (Web.tick true Web.init (V2.mkCtx 1000 0.90 0.08 "y" "n") 800 100
                   (Web.Resp None) (fun _ => true))))) <= 1)%nat.
Proof.
  apply (web_reachable_high_scalp true).
  apply Web.reach_tick, Web.reach_init.
Defined.

(** X15. With 300 s or less left and only high-price scalp positions open,
    V1's evaluate_market emits nothing and keeps the state: such positions are
    never exited. *)
Theorem v1_high_scalp_held st ctx py pn now :
  Qle_bool (V2.end_time ctx - now) 300 = true ->
  V1.positions st <> [] ->
  forallb V1.is_high_price_scalp (V1.positions st) = true ->
  V1.evaluate_market st ctx py pn now = (None, st).
Proof.
  intros Ht Hne Hall; unfold V1.evaluate_market; rewrite Ht.
  assert (Hl : filter (fun p => negb (V1.is_high_price_scalp p)) (V1.positions st) = []).
  { clear Hne; induction (V1.positions st) as [|p r IH]; [reflexivity|].
    simpl in Hall |- *; apply andb_true_iff in Hall as [H1 H2].
    rewrite H1; apply IH, H2. }
  assert (Hh : filter V1.is_high_price_scalp (V1.positions st) = V1.positions st).
  { apply forallb_filter_id, Hall. }
  destruct (V1.positions st) as [|p r] eqn:Ep; [contradiction|].
  unfold V1.force_unwind; rewrite Ep, Hl; cbn [nonempty negb].
  unfold V1.check_high_price_scalping; rewrite Ep, Hh.
  cbn [negb V1.enable_high_price_scalping nonempty orb].
  destruct (Qle_bool 300 _); reflexivity.
Qed.

Lemma v1_high_scalp_held_witness :
  V1.evaluate_market
    (V1.mkState [V1.mkPos 0.90 YES 0.90 5 700 true 0.02] [] 0 1 [] None None)
    (V2.mkCtx 1000 0.95 0.06 "y" "n") 0 0 800 =
  (None, V1.mkState [V1.mkPos 0.90 YES 0.90 5 700 true 0.02] [] 0 1 [] None None).
Proof.
  apply v1_high_scalp_held; [reflexivity|discriminate|reflexivity].
Defined.

(** X16. After V1's _check_exit emits a signal at time now, a _check_exit less
    than 1 s later emits nothing and keeps the state. *)
Theorem v1_exit_signal_debounce st ctx now sg st' ctx' now' :
  V1.check_exit st ctx now = (Some sg, st') ->
  Qltb (now' - now) 1 = true ->
  V1.check_exit st' ctx' now' = (None, st').
Proof.
  intros H Hd; unfold V1.check_exit in H.
  destruct (nonempty (V1.positions st)) eqn:Ep; cbn [negb] in H; [|discriminate].
  destruct (Qltb _ 1); [discriminate|].
  assert (Est : st' = V1.record_exit_signal st now).
  { destruct (if nonempty (V1.side_positions YES _) then _ else None);
      [injection H as _ <-; reflexivity|].
    destruct (if nonempty (V1.side_positions NO _) then _ else None);
      [injection H as _ <-; reflexivity|discriminate]. }
  subst st'; unfold V1.check_exit; cbn [V1.positions V1.record_exit_signal
    V1.last_exit_signal_time get_or].
  rewrite Ep; cbn [negb]; rewrite Hd; reflexivity.
Qed.

Lemma v1_exit_signal_debounce_witness :
  V1.check_exit
    (V1.record_exit_signal
       (V1.mkState [V1.mkPos 0.34 YES 0.30 10 0 false 0.05] [] 0 0 [] None None) 100)
    (V2.mkCtx 1000 0.5 0.6 "y" "n") (100 + 1 # 2) =
  (None, V1.record_exit_signal
       (V1.mkState [V1.mkPos 0.34 YES 0.30 10 0 false 0.05] [] 0 0 [] None None) 100).
Proof.
  apply (v1_exit_signal_debounce
           (V1.mkState [V1.mkPos 0.34 YES 0.30 10 0 false 0.05] [] 0 0 [] None None)
           (V2.mkCtx 1000 0.5 0.6 "y" "n") 100
           (mkSignal PLACE_TP_LIMIT "n" 0.6 10 HIGH
              {| md_side := Some YES; md_level := None;
                 md_is_high_price_scalp := None; md_profit_target := None;
                 md_fallback_sell_price := None; md_fallback_token := None;
                 md_order_type := Some "BUY"%string;
                 md_token_yes := Some "y"%string; md_token_no := Some "n"%string |}));
    reflexivity.
Defined.

Lemma v2_reachable_position_shapes_witness :
  Forall (fun p =>
    if V2.is_high_scalp p
    then V2.pos_size p = V2.high_scalp_size /\
         V2.profit_target p = V2.high_scalp_profit_target /\
         V2.high_scalp_threshold <= V2.entry_price p
    else V2.pos_size p = V2.level_size /\
         V2.profit_target p = V2.level_profit_target /\
         V2.entry_price p < 0.34)
    (V2.positions (V2.bot_tick V2.empty_state (V2.mkCtx 1000 0.30 0.72 "y" "n") 280 true)).
Proof. apply v2_reachable_position_shapes, V2.reach_tick, V2.reach_init. Defined.

Lemma v2_reachable_one_high_scalp_witness :
  (V2.count_high_scalp_positions
     (V2.bot_tick V2.empty_state (V2.mkCtx 1000 0.90 0.08 "y" "n") 800 true) <= 1)%nat.
Proof. apply v2_reachable_one_high_scalp, V2.reach_tick, V2.reach_init. Defined.

Lemma v2_reachable_cycles_bounded_witness :
  let st := V2.bot_tick V2.empty_state (V2.mkCtx 1000 0.30 0.72 "y" "n") 280 true in
  (V2.completed_cycles st <= V2.max_completed_cycles)%nat /\
  (V2.completed_cycles st = V2.max_completed_cycles -> V2.get_level_positions st = []).
Proof. apply v2_reachable_cycles_bounded, V2.reach_tick, V2.reach_init. Defined.

Lemma v2_evaluate_market_phases_witness :
  let ctx := V2.mkCtx 1000 0.30 0.72 "y" "n" in
  exists sg, V2.evaluate_market V2.empty_state ctx 280 = Some sg /\
  (Qltb (V2.end_time ctx - 280) V2.force_unwind_time = true ->
   action sg = EXIT \/
   (md_is_high_price_scalp (metadata sg) = Some true /\
    size sg = V2.high_scalp_size /\
    (action sg = ENTER_YES \/ action sg = ENTER_NO))) /\
  (Qltb (V2.end_time ctx - 280) V2.force_unwind_time = false ->
   action sg = PLACE_TP_LIMIT \/
   (V2.is_level_entry sg = true /\
    Qle_bool V2.min_time_for_level_entry (V2.end_time ctx - 280) = true)).
Proof.
  eexists; split; [reflexivity|].
  apply (v2_evaluate_market_phases V2.empty_state (V2.mkCtx 1000 0.30 0.72 "y" "n") 280); reflexivity.
Defined.

Lemma v2_position_summary_present_witness :
  let st := V2.bot_tick V2.empty_state (V2.mkCtx 1000 0.30 0.72 "y" "n") 280 true in
  let ctx := V2.mkCtx 1000 0.30 0.72 "y" "n" in
  (V2.get_position_summary st ctx = None <-> V2.positions st = []) /\
  (forall sm, V2.get_position_summary st ctx = Some sm -> 0 < V2.sum_size sm).
Proof. apply v2_position_summary_present, V2.reach_tick, V2.reach_init. Defined.

Module V1Entry.
Import V1.

Lemma Qeq_bool_trans_eq p q k : Qeq_bool p q = true -> Qeq_bool q k = Qeq_bool p k.
Proof.
  intros H; apply Qeq_bool_iff in H.
  destruct (Qeq_bool q k) eqn:E1, (Qeq_bool p k) eqn:E2; auto.
  - apply Qeq_bool_iff in E1; apply not_true_iff_false in E2.
    exfalso; apply E2, Qeq_bool_iff; rewrite H; exact E1.
  - apply Qeq_bool_iff in E2; apply not_true_iff_false in E1.
    exfalso; apply E1, Qeq_bool_iff; rewrite <- H; exact E2.
Qed.

Lemma key_eqb_refl k : key_eqb k k = true.
Proof. destruct k as [[] l]; unfold key_eqb; simpl; apply Qeq_bool_refl. Qed.

Lemma lookup_assign k v d : lookup k (assign k v d) = Some v.
Proof.
  induction d as [|[k' v'] r IH]; simpl.
  - rewrite key_eqb_refl; reflexivity.
  - destruct (key_eqb k k') eqn:E; simpl; rewrite E; [reflexivity|exact IH].
Qed.

Lemma lookup_Qeq s l l' d : l' == l -> lookup (s, l') d = lookup (s, l) d.
Proof.
  intros H; induction d as [|[[s' k] v] r IH]; simpl; [reflexivity|].
  unfold key_eqb; simpl.
  rewrite (Qeq_bool_trans_eq l' l k) by (apply Qeq_bool_iff, H).
  rewrite IH; reflexivity.
Qed.

Lemma first_such_sat {A} (f : A -> bool) l x : first_such f l = Some x -> f x = true.
Proof.
  induction l as [|y l IH]; simpl; [discriminate|].
  destruct (f y) eqn:E; [intros H; injection H as <-; exact E|exact IH].
Qed.

Lemma lowest_unentered_spec d s pr il :
  lowest_unentered d s pr = Some il ->
  Qeq_bool (get_or 0 (lookup (s, snd il) d)) 0 = true.
Proof.
  unfold lowest_unentered; intros H; apply first_such_sat in H.
  apply andb_true_iff in H as [_ H]; exact H.
Qed.

Lemma check_entry_cases st ctx now sg st' :
  check_entry st ctx now = (Some sg, st') ->
  exists s il, lowest_unentered (last_entry_time st) s (V2.side_price ctx s) = Some il /\
    md_side (metadata sg) = Some s /\ md_level (metadata sg) = Some (snd il) /\
    last_entry_time st' = assign (s, snd il) now (last_entry_time st).
Proof.
  unfold check_entry.
  destruct (Nat.leb _ _); [discriminate|].
  destruct (Qltb _ 300); [discriminate|].
  destruct (Qltb _ 420); [discriminate|].
  destruct (nonempty _); [discriminate|].
  destruct (lowest_unentered _ YES _) as [il|] eqn:E1.
  - intros H; injection H as <- <-; exists YES, il; auto.
  - destruct (lowest_unentered _ NO _) as [il|] eqn:E2; [|discriminate].
    intros H; injection H as <- <-; exists NO, il; auto.
Qed.

End V1Entry.

Import V1Entry.

(** X17. Once a nonzero entry time is recorded for a side and level, V1's
    _check_entry never emits an entry of that side at that level. *)
Theorem v1_entered_level_blocked st ctx now sg st' s l t :
  V1.lookup (s, l) (V1.last_entry_time st) = Some t -> ~ t == 0 ->
  V1.check_entry st ctx now = (Some sg, st') ->
  md_side (metadata sg) = Some s -> forall l', md_level (metadata sg) = Some l' -> ~ l' == l.
Proof.
  intros Ht Ht0 H Hs l' Hl' Heq.
  destruct (check_entry_cases _ _ _ _ _ H) as (s' & il & Hlu & Hs' & Hm & _).
  rewrite Hs in Hs'; injection Hs' as <-.
  rewrite Hm in Hl'; injection Hl' as <-.
  apply lowest_unentered_spec in Hlu.
  rewrite (lookup_Qeq s l (snd il) _ Heq), Ht in Hlu; cbn [get_or] in Hlu.
  apply Ht0, Qeq_bool_iff, Hlu.
Qed.

Lemma v1_entered_level_blocked_witness :
  exists sg st',
    V1.check_entry (V1.mkState [] [((YES, 0.34), 100)] 0 0 [] None None)
      (V2.mkCtx 1000 0.20 0.82 "y" "n") 280 = (Some sg, st') /\
    md_side (metadata sg) = Some YES /\
    forall l', md_level (metadata sg) = Some l' -> ~ l' == 0.34.
Proof.
  do 2 eexists; split; [reflexivity|]; split; [reflexivity|].
  eapply v1_entered_level_blocked
    with (st := V1.mkState [] [((YES, 0.34), 100)] 0 0 [] None None)
         (ctx := V2.mkCtx 1000 0.20 0.82 "y" "n") (now := 280) (s := YES) (l := 0.34) (t := 100);
    [reflexivity|discriminate|reflexivity|reflexivity].
Defined.
